(** * Verification of [src/utils.py]

    A shallow embedding of [extract_city], [detect_language],
    [top_ranked_repos] and [plot_histograms] of [src/utils.py], together with
    the Python built-ins they call, and the properties of the specification
    and of the code proved about them.

    Conventions of the embedding.
    - A Python [str] is a [string]; each [ascii] is the code point of one
      character in the range U+0000..U+00FF, and the character classes below
      ([isspace], the regex classes [\s] and [\w], [str.lower]) are those of
      CPython 3 on that range.
    - A Python value of unknown type ([Any]) is a [pyval].
    - A call either returns or raises: [outcome].
    - [set(...)] is a [gset string], the record [repo] a [gmap string pyval].
    - What a library leaves open is a parameter: the order pandas gives to
      rows of equal value ([order]), the arguments [Axes.hist] refuses
      ([hist_error]). *)

From Stdlib Require Import ZArith NArith Ascii String List Bool Lia Permutation Sorted.
From Stdlib Require Floats.SpecFloat.
From stdpp Require Import base option list gmap strings.

Local Open Scope string_scope.
Local Open Scope list_scope.

(** ** Python values and outcomes *)

#[local] Set Warnings "-register-all".

Inductive pyval : Type :=
| PyNone
| PyBool (b : bool)
| PyInt (z : Z)
| PyFloat (f : Floats.SpecFloat.spec_float)
| PyStr (s : string)
| PyList (l : list pyval)
| PyDict (d : list (string * pyval)).

Inductive exn : Type :=
| FileNotFoundError
| IsADirectoryError
| PermissionError
| UnicodeDecodeError
| JSONDecodeError
| AttributeError
| KeyError
| TypeError
| ValueError
| IndexError.

Inductive outcome (A : Type) : Type :=
| Return (a : A)
| Raise (e : exn).
Arguments Return {A} a.
Arguments Raise {A} e.

(** Sequencing: an exception ends the computation.  With these instances the
    notation [x ← m; k] of stdpp stands for "run [m], name its value [x], go on
    with [k]". *)
#[global] Instance outcome_ret : MRet outcome := @Return.
#[global] Instance outcome_bind : MBind outcome := fun A B k m =>
  match m with
  | Return a => k a
  | Raise e => Raise e
  end.

(** [isinstance(v, str)] and [isinstance(v, list)]. *)
Definition is_str (v : pyval) : bool :=
  match v with PyStr _ => true | _ => false end.

Definition is_list (v : pyval) : bool :=
  match v with PyList _ => true | _ => false end.

(** ** Characters and [str] methods *)

Module Py.

Definition code (c : ascii) : N := N_of_ascii c.

Definition in_range (lo hi : N) (c : ascii) : bool :=
  (lo <=? code c)%N && (code c <=? hi)%N.

(** [str.isspace] on one character: TAB..CR, FS..US, SPACE, NEL, NBSP. *)
Definition isspace (c : ascii) : bool :=
  in_range 9 13 c || in_range 28 32 c || (code c =? 133)%N || (code c =? 160)%N.

(** The characters [str.lower] changes: A-Z and the upper-case letters of
    the Latin-1 block (U+00C0..U+00DE without the multiplication sign). *)
Definition isupper (c : ascii) : bool :=
  in_range 65 90 c || (in_range 192 222 c && negb (code c =? 215)%N).

Definition lower_char (c : ascii) : ascii :=
  if isupper c then ascii_of_N (code c + 32) else c.

Definition is_ascii_lower (c : ascii) : bool := in_range 97 122 c.
Definition is_ascii_upper (c : ascii) : bool := in_range 65 90 c.
Definition is_ascii_letter (c : ascii) : bool :=
  is_ascii_lower c || is_ascii_upper c.

Definition upper_ascii_char (c : ascii) : ascii :=
  if is_ascii_lower c then ascii_of_N (code c - 32) else c.

(** [s.lower()] *)
Fixpoint lower (s : string) : string :=
  match s with
  | EmptyString => EmptyString
  | String c r => String (lower_char c) (lower r)
  end.

(** [s.lstrip()], [s.rstrip()], [s.strip()] *)
Fixpoint lstrip (s : string) : string :=
  match s with
  | EmptyString => EmptyString
  | String c r => if isspace c then lstrip r else s
  end.

Fixpoint rstrip (s : string) : string :=
  match s with
  | EmptyString => EmptyString
  | String c r =>
      match rstrip r with
      | EmptyString => if isspace c then EmptyString else String c EmptyString
      | r' => String c r'
      end
  end.

Definition strip (s : string) : string := rstrip (lstrip s).

Definition snoc (w : string) (c : ascii) : string := w +:+ String c EmptyString.

(** [s.split()]: runs of whitespace separate the words, no empty word is
    produced.  [word] is the word being read. *)
Fixpoint split_from (word : string) (s : string) : list string :=
  match s with
  | EmptyString =>
      match word with EmptyString => [] | _ => [word] end
  | String c r =>
      if isspace c then
        match word with
        | EmptyString => split_from EmptyString r
        | _ => word :: split_from EmptyString r
        end
      else split_from (snoc word c) r
  end.

Definition split (s : string) : list string := split_from EmptyString s.

(** [s.split(sep)] for a one-character separator: every separator ends a
    field, empty fields are kept, the empty string gives one empty field. *)
Fixpoint split_on_from (sep : ascii) (field : string) (s : string) : list string :=
  match s with
  | EmptyString => [field]
  | String c r =>
      if Ascii.eqb c sep then field :: split_on_from sep EmptyString r
      else split_on_from sep (snoc field c) r
  end.

Definition split_on (sep : ascii) (s : string) : list string :=
  split_on_from sep EmptyString s.

(** [sep.join(parts)] *)
Fixpoint join (sep : string) (parts : list string) : string :=
  match parts with
  | [] => EmptyString
  | [p] => p
  | p :: ps => p +:+ sep +:+ join sep ps
  end.

(** [s.title()]: a cased character is upper-cased when the character before
    it is not cased and lower-cased otherwise.  The embedding gives the case
    mapping of the ASCII letters; [extract_city] calls it on ASCII letters
    and spaces only (see [city_words_lower]). *)
Fixpoint title_from (previous_is_cased : bool) (s : string) : string :=
  match s with
  | EmptyString => EmptyString
  | String c r =>
      String (if previous_is_cased then lower_char c else upper_ascii_char c)
             (title_from (is_ascii_letter c) r)
  end.

Definition title (s : string) : string := title_from false s.

(** [s.endswith(suffix)] and [s.endswith(tuple(suffixes))] *)
Definition endswith (s suffix : string) : bool :=
  let n := String.length s in
  let k := String.length suffix in
  (k <=? n)%nat && String.eqb (substring (n - k) k s) suffix.

Definition endswith_any (s : string) (suffixes : list string) : bool :=
  existsb (endswith s) suffixes.

End Py.

(** ** The two regular expressions of [extract_city] *)

Module Re.

(** [\w] of a [str] pattern: alphanumeric characters and the underscore. *)
Definition is_word (c : ascii) : bool :=
  Py.in_range 48 57 c || Py.in_range 65 90 c || (Py.code c =? 95)%N
  || Py.in_range 97 122 c || (Py.code c =? 170)%N || Py.in_range 178 179 c
  || (Py.code c =? 181)%N || Py.in_range 185 186 c || Py.in_range 188 190 c
  || Py.in_range 192 214 c || Py.in_range 216 246 c || Py.in_range 248 255 c.

Definition is_word_opt (c : option ascii) : bool :=
  match c with Some c => is_word c | None => false end.

(** [\b] between two neighbouring positions ([None] is an end of the string). *)
Definition word_boundary (before after : option ascii) : bool :=
  xorb (is_word_opt before) (is_word_opt after).

Definition head (s : string) : option ascii :=
  match s with EmptyString => None | String c _ => Some c end.

Fixpoint drop (n : nat) (s : string) : string :=
  match n, s with
  | O, _ => s
  | S _, EmptyString => EmptyString
  | S k, String _ r => drop k r
  end.

(** Does [\b(egypt)\b] match at the start of [s], [prev] being the character
    before it? *)
Definition match_egypt (prev : option ascii) (s : string) : bool :=
  word_boundary prev (head s)
  && String.prefix "egypt" s
  && word_boundary (Some "t"%char) (head (drop 5 s)).

(** [re.sub(r'\b(egypt)\b', '', s)]: the scan goes from left to right; at a
    match the five characters are skipped ([skip] counts the ones left), at
    any other position the character is copied. *)
Fixpoint sub_egypt_from (skip : nat) (prev : option ascii) (s : string) : string :=
  match s with
  | EmptyString => EmptyString
  | String c r =>
      match skip with
      | S k => sub_egypt_from k (Some c) r
      | O =>
          if match_egypt prev s then sub_egypt_from 4 (Some c) r
          else String c (sub_egypt_from 0 (Some c) r)
      end
  end.

Definition sub_egypt (s : string) : string := sub_egypt_from 0 None s.

(** The class [[a-zA-Z\s]]. *)
Definition letter_or_space (c : ascii) : bool :=
  Py.is_ascii_letter c || Py.isspace c.

(** [re.sub(r'[^a-zA-Z\s]', '', s)] *)
Fixpoint sub_non_letters (s : string) : string :=
  match s with
  | EmptyString => EmptyString
  | String c r =>
      if letter_or_space c then String c (sub_non_letters r)
      else sub_non_letters r
  end.

End Re.

(** ** [extract_city] *)

Definition extract_city (location : pyval) : outcome (option string) :=
  match location with
  | PyStr location =>
      let location := Py.lower (Py.strip location) in
      let location := Re.sub_egypt location in
      if String.eqb location "" then Return (Some "Egypt")
      else
        let city := Re.sub_non_letters location in
        let parts := Py.split city in
        if (0 <? List.length parts)%nat
        then Return (Some (Py.title (Py.join " " parts)))
        else Return None
  | _ => Return None
  end.

(** ** [detect_language] *)

(** The keyword table of [languages_keywords.json] after [json.load]: a
    [dict] from language name to the list of its identifiers, iterated by
    [.items()] in insertion order. *)
Definition keyword_table : Type := list (string * list string).

(** What is at a path of the file system (a path that is not in it has no
    file): something [open] refuses, or a file whose content is no UTF-8
    text, or a text that is no JSON document, or a JSON document, given by
    the value [json.load] makes of it (an object is a [dict] with its items
    in insertion order). *)
Inductive json_file : Type :=
| Directory
| Unreadable
| NotUtf8
| Malformed
| Parsed (document : pyval).

(** The document of a keyword table. *)
Definition table_items (table : keyword_table) : list (string * pyval) :=
  (fun entry : string * list string =>
     (fst entry, PyList (PyStr <$> snd entry))) <$> table.

Definition Keywords (table : keyword_table) : json_file :=
  Parsed (PyDict (table_items table)).

Inductive io_event : Type :=
| Open (path : string)
| Close (path : string).

(** A computation that reads the file system and logs its file operations. *)
Definition io (A : Type) : Type :=
  gmap string json_file -> list io_event * outcome A.

#[global] Instance io_ret : MRet io := fun A a _ => ([], Return a).
#[global] Instance io_bind : MBind io := fun A B k m fs =>
  match m fs with
  | (log, Return a) => let (log', r) := k a fs in (log ++ log', r)
  | (log, Raise e) => (log, Raise e)
  end.

Definition lift {A : Type} (r : outcome A) : io A := fun _ => ([], r).

Definition keywords_path : string := "./data/json_files/languages_keywords.json".

(** [with open(path, "r", encoding='utf-8') as file: json.load(file)]: the
    file is closed when the block is left, also by an exception. *)
Definition load_json (path : string) : io pyval := fun fs =>
  match fs !! path with
  | None => ([Open path], Raise FileNotFoundError)
  | Some Directory => ([Open path], Raise IsADirectoryError)
  | Some Unreadable => ([Open path], Raise PermissionError)
  | Some NotUtf8 => ([Open path; Close path], Raise UnicodeDecodeError)
  | Some Malformed => ([Open path; Close path], Raise JSONDecodeError)
  | Some (Parsed document) => ([Open path; Close path], Return document)
  end.

(** [repo.get(key)] *)
Definition get (repo : gmap string pyval) (key : string) : pyval :=
  default PyNone (repo !! key).

(** [set(repo_description.lower().split() + topics.lower().split(","))] *)
Definition text_words (repo_description topics : string) : gset string :=
  list_to_set (Py.split (Py.lower repo_description)
               ++ Py.split_on "," (Py.lower topics)).

(** The loops for a table of the expected shape, a list of texts per
    language ([items_loop_table] relates them to the loops for any
    document). *)

(** The first inner loop: is some identifier in [text_words]? *)
Definition keyword_in (text_words : gset string) (identifiers : list string) : bool :=
  existsb (fun word => bool_decide (word ∈ text_words)) identifiers.

(** The second inner loop: does some file name end with an identifier?  An
    element of [filenames] that is not a [str] has no [endswith]. *)
Fixpoint file_endswith (identifiers : list string) (filenames : list pyval)
  : outcome bool :=
  match filenames with
  | [] => Return false
  | PyStr file :: rest =>
      if Py.endswith_any file identifiers then Return true
      else file_endswith identifiers rest
  | _ :: _ => Raise AttributeError
  end.

(** The loop over [languages_keywords.items()]. *)
Fixpoint detect_loop (text_words : gset string) (filenames : list pyval)
    (languages_keywords : keyword_table) : outcome (option string) :=
  match languages_keywords with
  | [] => Return None
  | (lang, identifiers) :: rest =>
      if keyword_in text_words identifiers then Return (Some lang)
      else
        found ← file_endswith identifiers filenames;
        if found : bool then Return (Some lang)
        else detect_loop text_words filenames rest
  end.

(** The same loops for a document of any shape. *)

(** The characters of a text, each as a text. *)
Fixpoint characters (s : string) : list pyval :=
  match s with
  | EmptyString => []
  | String c r => PyStr (String c EmptyString) :: characters r
  end.

(** What [for word in v] and [tuple(v)] go through: the elements of a list,
    the characters of a text, the keys of a dict; other values cannot be
    iterated. *)
Definition iterate (v : pyval) : outcome (list pyval) :=
  match v with
  | PyList l => Return l
  | PyStr s => Return (characters s)
  | PyDict d => Return ((fun item : string * pyval => PyStr (fst item)) <$> d)
  | _ => Raise TypeError
  end.

(** [for word in identifiers: if word in text_words: ...]: a list or a dict
    cannot be hashed, any other value that is no text is in no set of
    texts. *)
Fixpoint word_in (text_words : gset string) (identifiers : list pyval)
  : outcome bool :=
  match identifiers with
  | [] => Return false
  | PyStr word :: rest =>
      if bool_decide (word ∈ text_words) then Return true
      else word_in text_words rest
  | PyList _ :: _ | PyDict _ :: _ => Raise TypeError
  | _ :: rest => word_in text_words rest
  end.

(** [file.endswith(suffixes)] for a tuple: the suffixes are tried in order,
    and one that is no text is a [TypeError] when it is reached. *)
Fixpoint endswith_tuple (file : string) (suffixes : list pyval) : outcome bool :=
  match suffixes with
  | [] => Return false
  | PyStr suffix :: rest =>
      if Py.endswith file suffix then Return true
      else endswith_tuple file rest
  | _ :: _ => Raise TypeError
  end.

Fixpoint files_endswith (identifiers : list pyval) (filenames : list pyval)
  : outcome bool :=
  match filenames with
  | [] => Return false
  | PyStr file :: rest =>
      match endswith_tuple file identifiers with
      | Return true => Return true
      | Return false => files_endswith identifiers rest
      | Raise e => Raise e
      end
  | _ :: _ => Raise AttributeError
  end.

(** The loop over the items of the loaded dict. *)
Fixpoint items_loop (text_words : gset string) (filenames : list pyval)
    (items : list (string * pyval)) : outcome (option string) :=
  match items with
  | [] => Return None
  | (lang, identifiers) :: rest =>
      words ← iterate identifiers;
      found ← word_in text_words words;
      if found : bool then Return (Some lang)
      else
        found ← files_endswith words filenames;
        if found : bool then Return (Some lang)
        else items_loop text_words filenames rest
  end.

(** [languages_keywords.items()] exists for a dict only. *)
Definition keywords_loop (text_words : gset string) (filenames : list pyval)
    (languages_keywords : pyval) : outcome (option string) :=
  match languages_keywords with
  | PyDict items => items_loop text_words filenames items
  | _ => Raise AttributeError
  end.

Definition detect_language (repo : gmap string pyval) : io (option string) :=
  match get repo "repo_description", get repo "topics", get repo "filenames" with
  | PyStr repo_description, PyStr topics, PyList filenames =>
      languages_keywords ← load_json keywords_path;
      lift (keywords_loop (text_words repo_description topics) filenames
              languages_keywords)
  | _, _, _ => mret None
  end.

(** ** [top_ranked_repos] *)

(** A row of the repository table: the [repo_name] column and the numeric
    columns by name (a missing number is a row without that name). *)
Record row : Type := Row { repo_name : string; features : gmap string Z }.

(** A [DataFrame] with a [repo_name] column: the names of its other columns,
    which are numeric, and its rows. *)
Record dataframe : Type :=
  DataFrame { df_columns : list string; df_rows : list row }.

Definition value (feature : string) (r : row) : Z :=
  default 0%Z (features r !! feature).

Definition has_column (feature : string) (df : dataframe) : bool :=
  bool_decide (feature ∈ "repo_name" :: df_columns df).

(** Every row has a number in the column. *)
Definition no_missing (feature : string) (l : list row) : bool :=
  forallb (fun r => bool_decide (is_Some (features r !! feature))) l.

Module Pd.

(** [df.sort_values(by=feature, ascending=False)]; a missing column is a
    [KeyError].  The order pandas gives to the rows is the parameter
    [order]: among rows of equal value it depends on the sorting algorithm
    pandas runs. *)
Definition sort_values (order : string -> list row -> list row)
    (feature : string) (df : dataframe) : outcome dataframe :=
  if has_column feature df
  then Return (DataFrame (df_columns df) (order feature (df_rows df)))
  else Raise KeyError.

(** [df.head(n)]: the first [n] rows, and for a negative [n] all rows but the
    last [-n]. *)
Definition head (n : Z) (df : dataframe) : dataframe :=
  DataFrame (df_columns df)
    (if (0 <=? n)%Z then take (Z.to_nat n) (df_rows df)
     else take (List.length (df_rows df) - Z.to_nat (- n)) (df_rows df)).

End Pd.

(** The value returned by [top_ranked_repos(df, feature, n=n)].  The calls
    between the computation of [top_repos] and its return only draw the bar
    chart. *)
Definition top_ranked_repos (order : string -> list row -> list row)
    (df : dataframe) (feature : string) (n : Z) : outcome dataframe :=
  sorted ← Pd.sort_values order feature df;
  let top_repos := Pd.head n sorted in
  Return top_repos.

(** ** [plot_histograms] *)

(** What a plotting call leaves on the figure, in the order of the calls. *)
Inductive drawing (color : Type) : Type :=
| Subplots (ncols : nat)
| Hist (axis : nat) (values : list Z) (c : color)
| SetTitle (axis : nat) (text : string)
| SetXlabel (axis : nat) (text : string)
| SetYlabel (axis : nat) (text : string)
| TightLayout
| Show.
Arguments Subplots {color} ncols.
Arguments Hist {color} axis values c.
Arguments SetTitle {color} axis text.
Arguments SetXlabel {color} axis text.
Arguments SetYlabel {color} axis text.
Arguments TightLayout {color}.
Arguments Show {color}.

(** The body of the loop over [enumerate(columns)], from index [i] on:
    [axes[i]], then [data[column]] (a [KeyError] for a missing column), then
    [palette_color[i]] (an [IndexError] past the end), then the call of
    [hist] and the three calls that label the axis.  [Axes.hist] refuses
    some arguments (a colour it does not know, values it cannot put in
    bins): [hist_error] gives the exception it raises for them, if any.
    The result is the drawings made and the exception that ended the loop,
    if any. *)
Fixpoint hist_loop {color : Type} (hist_error : list Z -> color -> option exn)
    (data : gmap string (list Z)) (palette_color : list color) (i : nat)
    (columns : list string) : list (drawing color) * option exn :=
  match columns with
  | [] => ([], None)
  | column :: rest =>
      match data !! column with
      | None => ([], Some KeyError)
      | Some values =>
          match palette_color !! i with
          | None => ([], Some IndexError)
          | Some c =>
              match hist_error values c with
              | Some e => ([], Some e)
              | None =>
                  let (log, r) :=
                    hist_loop hist_error data palette_color (S i) rest in
                  ([Hist i values c;
                    SetTitle i ("Distribution of " +:+ column);
                    SetXlabel i ("Number of " +:+ column);
                    SetYlabel i "Frequency"] ++ log, r)
              end
          end
      end
  end.

(** [plot_histograms(data, columns, palette_color)].  [plt.subplots(1, n)]
    refuses [n = 0] with a [ValueError]; for [n = 1] it gives one [Axes]
    object, which has no [axes[i]] ([TypeError]); from [n = 2] on it gives
    an array of [n] axes. *)
Definition plot_histograms {color : Type}
    (hist_error : list Z -> color -> option exn)
    (data : gmap string (list Z)) (columns : list string)
    (palette_color : list color) : list (drawing color) * option exn :=
  match List.length columns with
  | 0 => ([], Some ValueError)
  | 1 => ([Subplots 1], Some TypeError)
  | n =>
      match hist_loop hist_error data palette_color 0 columns with
      | (log, Some e) => (Subplots n :: log, Some e)
      | (log, None) => (Subplots n :: log ++ [TightLayout; Show], None)
      end
  end.

(** The three look-ups and the call of [hist] go well for the column at
    place [k], the loop having begun at index [i]. *)
Definition column_ok {color : Type} (hist_error : list Z -> color -> option exn)
    (data : gmap string (list Z)) (palette_color : list color) (i : nat)
    (columns : list string) (k : nat) : Prop :=
  forall column,
    columns !! k = Some column ->
    exists values c,
      data !! column = Some values
      /\ palette_color !! (i + k) = Some c
      /\ hist_error values c = None.

(** ** Vocabulary of the statements *)

(** Every character of [s] satisfies [P]. *)
Fixpoint all_chars (P : ascii -> bool) (s : string) : bool :=
  match s with
  | EmptyString => true
  | String c r => P c && all_chars P r
  end.

Definition not_upper (c : ascii) : bool := negb (Py.is_ascii_upper c).

(** A word of [split] over characters that satisfy [P]: not empty, without
    whitespace. *)
Definition is_word_of (P : ascii -> bool) (w : string) : Prop :=
  w <> "" /\ all_chars (fun c => P c && negb (Py.isspace c)) w = true.

(** A word with its first letter in upper case. *)
Definition capitalize (w : string) : string :=
  match w with
  | EmptyString => EmptyString
  | String c r => String (Py.upper_ascii_char c) r
  end.

(** The location after [strip], [lower] and the removal of the country. *)
Definition without_country (location : string) : string :=
  Re.sub_egypt (Py.lower (Py.strip location)).

(** The words left of it once the other characters are gone. *)
Definition city_words (location : string) : list string :=
  Py.split (Re.sub_non_letters (without_country location)).

(** A language matches a record when one of its identifiers is a candidate
    word or ends one of the file names. *)
Definition lang_matches (words : gset string) (files : list string)
    (entry : string * list string) : bool :=
  keyword_in words (snd entry)
  || existsb (fun file => Py.endswith_any file (snd entry)) files.

Definition first_match (words : gset string) (files : list string)
    (table : keyword_table) : option string :=
  fst <$> List.find (lang_matches words files) table.

(** The first language, in table order, one of whose identifiers is a
    candidate word. *)
Definition first_keyword_language (words : gset string) (table : keyword_table)
  : option string :=
  fst <$> List.find (fun entry => keyword_in words (snd entry)) table.

(** The fields [detect_language] reads are a text, a text and a list. *)
Definition fields_ok (repo : gmap string pyval) : bool :=
  is_str (get repo "repo_description") && is_str (get repo "topics")
  && is_list (get repo "filenames").

(** A record with exactly the three fields. *)
Definition record (repo_description topics : string) (filenames : list string)
  : gmap string pyval :=
  <["repo_description" := PyStr repo_description]>
    (<["topics" := PyStr topics]>
       (<["filenames" := PyList (PyStr <$> filenames)]> ∅)).

(** The table and the file system of the examples. *)
Definition example_table : keyword_table :=
  [("Python", ["python"; ".py"]); ("Go", ["golang"; ".go"])].

Definition example_fs : gmap string json_file :=
  {[ keywords_path := Keywords example_table ]}.

(** Descending order of a column. *)
Definition desc (feature : string) (a b : row) : Prop :=
  (value feature b <= value feature a)%Z.

(** What [sort_values(by=feature, ascending=False)] promises of the order
    it gives to the rows: the same rows, and in descending order of the
    column when no number is missing in it.  Rows of equal value come in
    any order. *)
Definition descending_order (order : string -> list row -> list row) : Prop :=
  forall (feature : string) (l : list row),
    order feature l ≡ₚ l
    /\ (no_missing feature l = true ->
        StronglySorted (desc feature) (order feature l)).

(** One such order, sorting by insertion: a row goes in front of the first
    row whose value is not greater than its own. *)
Fixpoint insert_desc (feature : string) (r : row) (sorted : list row)
  : list row :=
  match sorted with
  | [] => [r]
  | x :: rest =>
      if (value feature x <=? value feature r)%Z then r :: sorted
      else x :: insert_desc feature r rest
  end.

Fixpoint insertion_order (feature : string) (l : list row) : list row :=
  match l with
  | [] => []
  | r :: rest => insert_desc feature r (insertion_order feature rest)
  end.

Definition stars (name : string) (n : Z) : row :=
  Row name {[ "stars" := n ]}.

Definition example_df : dataframe :=
  DataFrame ["stars"]
    [stars "a" 3; stars "b" 10; stars "c" 3; stars "d" 7; stars "e" 1;
     stars "f" 12; stars "g" 5].

(** A capitalised word: an upper-case ASCII letter, then lower-case ones. *)
Definition is_capitalized (w : string) : bool :=
  match w with
  | EmptyString => false
  | String c r => Py.is_ascii_upper c && all_chars Py.is_ascii_lower r
  end.

(** A lower-case word: not empty, ASCII lower-case letters only. *)
Definition is_lower_word (w : string) : Prop :=
  w <> "" /\ all_chars Py.is_ascii_lower w = true.

(** No character of [s] is changed by [lower]. *)
Definition no_upper (s : string) : bool :=
  all_chars (fun c => negb (Py.isupper c)) s.

Definition no_space (s : string) : bool :=
  all_chars (fun c => negb (Py.isspace c)) s.

Definition no_comma (s : string) : bool :=
  all_chars (fun c => negb (Ascii.eqb c ",")) s.

(** The histograms among the drawings. *)
Definition hists {color : Type} (log : list (drawing color))
  : list (nat * list Z * color) :=
  omap (fun d => match d with Hist i values c => Some (i, values, c) | _ => None end)
       log.

(** * Properties *)

(** ** Characters *)

Ltac each_char c := destruct c as [[] [] [] [] [] [] [] []]; vm_compute; try reflexivity; try discriminate.

Lemma lower_char_not_upper (c : ascii) :
  Py.is_ascii_upper (Py.lower_char c) = false.
Proof. each_char c. Qed.

Lemma lower_char_lower (c : ascii) :
  Py.is_ascii_lower c = true -> Py.lower_char c = c.
Proof. each_char c. Qed.

(** ** Strings *)

Lemma app_cons (c : ascii) (a b : string) :
  String c a +:+ b = String c (a +:+ b).
Proof. reflexivity. Qed.

Lemma app_nil (b : string) : "" +:+ b = b.
Proof. reflexivity. Qed.

Lemma prefix_drop (p s : string) :
  String.prefix p s = true -> s = p +:+ Re.drop (String.length p) s.
Proof.
  revert s. induction p as [|a p IH]; intros s H.
  - reflexivity.
  - destruct s as [|b s]; [discriminate|].
    simpl in H. destruct (ascii_dec a b) as [->|]; [|discriminate].
    rewrite app_cons. simpl. f_equal. apply IH. exact H.
Qed.

Lemma all_chars_app (P : ascii -> bool) (a b : string) :
  all_chars P (a +:+ b) = all_chars P a && all_chars P b.
Proof.
  induction a as [|c a IH]; [reflexivity|].
  rewrite app_cons. simpl. rewrite IH. apply andb_assoc.
Qed.

Lemma match_egypt_inv (prev : option ascii) (s : string) :
  Re.match_egypt prev s = true ->
  exists rest, s = "egypt" +:+ rest
    /\ Re.word_boundary prev (Some "e"%char) = true
    /\ Re.word_boundary (Some "t"%char) (Re.head rest) = true.
Proof.
  unfold Re.match_egypt. intros M.
  apply andb_prop in M as [M B]. apply andb_prop in M as [A Pf].
  apply prefix_drop in Pf.
  exists (Re.drop 5 s). split; [exact Pf|]. split; [|exact B].
  rewrite Pf in A. exact A.
Qed.

Lemma sub_egypt_from_skip (prev : option ascii) (rest : string) :
  Re.match_egypt prev ("egypt" +:+ rest) = true ->
  Re.sub_egypt_from 0 prev ("egypt" +:+ rest)
  = Re.sub_egypt_from 0 (Some "t"%char) rest.
Proof.
  intros M. change ("egypt" +:+ rest) with (String "e" ("gypt" +:+ rest)) in *.
  cbn [Re.sub_egypt_from]. rewrite M. reflexivity.
Qed.

Lemma sub_egypt_from_empty (prev : option ascii) (s : string) :
  Re.sub_egypt_from 0 prev s = "" -> s = "" \/ s = "egypt".
Proof.
  destruct s as [|c r]; [now left|]. intros H. right.
  destruct (Re.match_egypt prev (String c r)) eqn:M.
  - destruct (match_egypt_inv _ _ M) as (rest & E & _ & B).
    rewrite E in M, H |- *. rewrite (sub_egypt_from_skip _ _ M) in H.
    destruct rest as [|c' r']; [reflexivity|].
    exfalso. cbn [Re.sub_egypt_from] in H.
    destruct (Re.match_egypt (Some "t"%char) (String c' r')) eqn:M'; [|discriminate].
    destruct (match_egypt_inv _ _ M') as (_ & _ & B' & _). discriminate B'.
  - cbn [Re.sub_egypt_from] in H. rewrite M in H. discriminate.
Qed.

Lemma sub_egypt_empty_iff (s : string) :
  Re.sub_egypt s = "" <-> s = "" \/ s = "egypt".
Proof.
  split; [apply sub_egypt_from_empty|].
  intros [->| ->]; reflexivity.
Qed.

Lemma app_empty_r (a : string) : a +:+ "" = a.
Proof. induction a as [|c a IH]; [reflexivity|]. rewrite app_cons, IH. reflexivity. Qed.

Lemma all_chars_impl (P Q : ascii -> bool) (s : string) :
  (forall c, P c = true -> Q c = true) ->
  all_chars P s = true -> all_chars Q s = true.
Proof.
  intros PQ. induction s as [|c s IH]; simpl; [reflexivity|].
  intros H. apply andb_prop in H as [Hc Hs].
  rewrite (PQ _ Hc), (IH Hs). reflexivity.
Qed.

Lemma all_chars_and (P Q : ascii -> bool) (s : string) :
  all_chars P s = true -> all_chars Q s = true ->
  all_chars (fun c => P c && Q c) s = true.
Proof.
  induction s as [|c s IH]; simpl; [reflexivity|].
  intros HP HQ. apply andb_prop in HP as [-> HP]. apply andb_prop in HQ as [-> HQ].
  rewrite (IH HP HQ). reflexivity.
Qed.

Lemma lower_chars (s : string) : all_chars not_upper (Py.lower s) = true.
Proof.
  induction s as [|c s IH]; simpl; [reflexivity|].
  unfold not_upper at 1. rewrite lower_char_not_upper, IH. reflexivity.
Qed.

Lemma sub_egypt_from_chars (P : ascii -> bool) (s : string) :
  forall skip prev,
    all_chars P s = true -> all_chars P (Re.sub_egypt_from skip prev s) = true.
Proof.
  induction s as [|c s IH]; intros skip prev H; [reflexivity|].
  simpl in H. apply andb_prop in H as [Hc Hs].
  cbn [Re.sub_egypt_from]. destruct skip as [|k]; [|now apply IH].
  destruct (Re.match_egypt prev (String c s)); [now apply IH|].
  simpl. rewrite Hc. now apply IH.
Qed.

Lemma sub_non_letters_filter (s : string) :
  list_ascii_of_string (Re.sub_non_letters s)
  = List.filter Re.letter_or_space (list_ascii_of_string s).
Proof.
  induction s as [|c s IH]; simpl; [reflexivity|].
  destruct (Re.letter_or_space c); simpl; rewrite IH; reflexivity.
Qed.

Lemma sub_non_letters_chars (P : ascii -> bool) (s : string) :
  all_chars P s = true ->
  all_chars (fun c => P c && Re.letter_or_space c) (Re.sub_non_letters s) = true.
Proof.
  induction s as [|c s IH]; simpl; [reflexivity|].
  intros H. apply andb_prop in H as [Hc Hs].
  destruct (Re.letter_or_space c) eqn:L; [|now apply IH].
  simpl. rewrite Hc, L. now apply IH.
Qed.

Lemma snoc_not_empty (w : string) (c : ascii) : Py.snoc w c <> "".
Proof. destruct w; discriminate. Qed.

Lemma split_from_words (P : ascii -> bool) (s : string) :
  forall word,
    all_chars P s = true ->
    all_chars (fun c => P c && negb (Py.isspace c)) word = true ->
    Forall (is_word_of P) (Py.split_from word s).
Proof.
  induction s as [|c s IH]; intros word Hs Hw.
  - simpl. destruct word; constructor; [|constructor].
    split; [discriminate|exact Hw].
  - simpl in Hs. apply andb_prop in Hs as [Hc Hs]. simpl.
    destruct (Py.isspace c) eqn:Sp.
    + destruct word; [now apply IH|].
      constructor; [split; [discriminate|exact Hw]|now apply IH].
    + apply IH; [exact Hs|]. unfold Py.snoc. rewrite all_chars_app, Hw.
      simpl. rewrite Hc, Sp. reflexivity.
Qed.

Lemma lower_letter (c : ascii) :
  (not_upper c && Re.letter_or_space c) && negb (Py.isspace c) = true ->
  Py.is_ascii_lower c = true.
Proof. each_char c. Qed.

Lemma city_words_lower (location : string) :
  Forall (fun w => w <> "" /\ all_chars Py.is_ascii_lower w = true)
         (city_words location).
Proof.
  unfold city_words, without_country, Re.sub_egypt, Py.split.
  set (P := fun c => not_upper c && Re.letter_or_space c).
  assert (Forall (is_word_of P)
            (Py.split_from ""
               (Re.sub_non_letters
                  (Re.sub_egypt_from 0 None (Py.lower (Py.strip location))))))
    as H.
  { apply split_from_words; [|reflexivity].
    apply sub_non_letters_chars, sub_egypt_from_chars, lower_chars. }
  revert H. apply List.Forall_impl. intros w [Hne Hw]. split; [exact Hne|].
  revert Hw. apply all_chars_impl, lower_letter.
Qed.

Lemma title_from_lower (w tail : string) :
  all_chars Py.is_ascii_lower w = true ->
  Py.title_from true (w +:+ tail) = w +:+ Py.title_from true tail.
Proof.
  induction w as [|c w IH]; intros H; [reflexivity|].
  simpl in H. apply andb_prop in H as [Hc Hw].
  rewrite !app_cons. cbn [Py.title_from].
  rewrite (lower_char_lower _ Hc). unfold Py.is_ascii_letter. rewrite Hc.
  simpl. rewrite (IH Hw). reflexivity.
Qed.

Lemma title_from_word (w tail : string) :
  all_chars Py.is_ascii_lower w = true -> w <> "" ->
  Py.title_from false (w +:+ tail) = capitalize w +:+ Py.title_from true tail.
Proof.
  destruct w as [|c w]; [congruence|]. intros H _.
  simpl in H. apply andb_prop in H as [Hc Hw].
  rewrite app_cons. cbn [Py.title_from capitalize]. rewrite app_cons.
  unfold Py.is_ascii_letter. rewrite Hc. simpl.
  rewrite (title_from_lower _ _ Hw). reflexivity.
Qed.

Lemma title_join (parts : list string) :
  Forall (fun w => w <> "" /\ all_chars Py.is_ascii_lower w = true) parts ->
  Py.title (Py.join " " parts) = Py.join " " (capitalize <$> parts).
Proof.
  unfold Py.title. induction 1 as [|w ws [Hne Hw] Hws IH]; [reflexivity|].
  destruct ws as [|w' ws].
  - simpl. rewrite <- (app_empty_r w) at 1.
    rewrite (title_from_word _ _ Hw Hne). apply app_empty_r.
  - change (Py.join " " (w :: w' :: ws)) with (w +:+ " " +:+ Py.join " " (w' :: ws)).
    rewrite (title_from_word _ _ Hw Hne).
    change (Py.title_from true (" " +:+ Py.join " " (w' :: ws)))
      with (" " +:+ Py.title_from false (Py.join " " (w' :: ws))).
    rewrite IH. reflexivity.
Qed.

Lemma app_assoc_str (a b c : string) : (a +:+ b) +:+ c = a +:+ (b +:+ c).
Proof.
  induction a as [|x a IH]; [reflexivity|].
  rewrite !app_cons, IH. reflexivity.
Qed.

Lemma length_app_str (a b : string) :
  String.length (a +:+ b) = (String.length a + String.length b)%nat.
Proof.
  induction a as [|x a IH]; [reflexivity|].
  rewrite app_cons. simpl. rewrite IH. reflexivity.
Qed.

Lemma substring_all (s : string) : substring 0 (String.length s) s = s.
Proof. induction s as [|c s IH]; simpl; [reflexivity|]. rewrite IH. reflexivity. Qed.

Lemma substring_skip (p s : string) (k : nat) :
  substring (String.length p) k (p +:+ s) = substring 0 k s.
Proof.
  induction p as [|c p IH]; [reflexivity|].
  rewrite app_cons. simpl. exact IH.
Qed.

Lemma substring_split (s : string) (m : nat) :
  (m <= String.length s)%nat ->
  s = substring 0 m s +:+ substring m (String.length s - m) s.
Proof.
  revert m. induction s as [|c s IH]; intros m Hm.
  - simpl in Hm. assert (m = 0%nat) as -> by lia. reflexivity.
  - destruct m as [|m].
    + cbn [substring]. rewrite app_nil. 
      change (String.length (String c s) - 0)%nat with (S (String.length s)).
      cbn [substring]. rewrite substring_all. reflexivity.
    + simpl in Hm. cbn [substring String.length Nat.sub]. rewrite app_cons.
      f_equal. apply IH. lia.
Qed.

(** [endswith] is the suffix relation. *)
Lemma endswith_spec (s suffix : string) :
  Py.endswith s suffix = true <-> exists p, s = p +:+ suffix.
Proof.
  unfold Py.endswith. split.
  - intros H. apply andb_prop in H as [Hk He].
    apply Nat.leb_le in Hk. apply String.eqb_eq in He.
    exists (substring 0 (String.length s - String.length suffix) s).
    pose proof (substring_split s (String.length s - String.length suffix)) as E.
    replace (String.length s - (String.length s - String.length suffix))%nat
      with (String.length suffix) in E by lia.
    rewrite He in E. apply E. lia.
  - intros [p ->]. rewrite length_app_str. apply andb_true_intro. split.
    + apply Nat.leb_le. lia.
    + replace (String.length p + String.length suffix - String.length suffix)%nat
        with (String.length p) by lia.
      rewrite substring_skip, substring_all. apply String.eqb_refl.
Qed.

Lemma lower_app (a b : string) : Py.lower (a +:+ b) = Py.lower a +:+ Py.lower b.
Proof.
  induction a as [|c a IH]; [reflexivity|].
  rewrite app_cons. simpl. rewrite IH. reflexivity.
Qed.

Lemma split_on_from_sep (sep : ascii) (x y : string) :
  forall field,
    Py.split_on_from sep field (x +:+ String sep y)
    = Py.split_on_from sep field x ++ Py.split_on sep y.
Proof.
  induction x as [|c x IH]; intros field.
  - rewrite app_nil. simpl. rewrite Ascii.eqb_refl. reflexivity.
  - rewrite app_cons. simpl. destruct (Ascii.eqb c sep).
    + rewrite IH. reflexivity.
    + apply IH.
Qed.

Lemma split_on_from_field (sep : ascii) (s : string) :
  forall field,
    Py.split_on_from sep field s
    = (field +:+ List.hd "" (Py.split_on sep s)) :: List.tl (Py.split_on sep s).
Proof.
  unfold Py.split_on. induction s as [|c s IH]; intros field.
  - simpl. rewrite app_empty_r. reflexivity.
  - simpl. destruct (Ascii.eqb c sep).
    + simpl. rewrite app_empty_r. reflexivity.
    + rewrite (IH (Py.snoc field c)), (IH (Py.snoc "" c)). simpl.
      unfold Py.snoc. rewrite !app_assoc_str, app_nil. reflexivity.
Qed.

Lemma elem_of_text_words (repo_description topics word : string) :
  word ∈ text_words repo_description topics
  <-> word ∈ Py.split (Py.lower repo_description)
      \/ word ∈ Py.split_on "," (Py.lower topics).
Proof. unfold text_words. rewrite elem_of_list_to_set, elem_of_app. reflexivity. Qed.

Lemma split_on_space_field (s : string) :
  Py.split_on "," (" " +:+ s)
  = (" " +:+ List.hd "" (Py.split_on "," s)) :: List.tl (Py.split_on "," s).
Proof. apply (split_on_from_field "," s " "). Qed.

Lemma topics_space_token (repo_description x y : string) :
  (" " +:+ List.hd "" (Py.split_on "," (Py.lower y)))
    ∈ text_words repo_description (x +:+ ", " +:+ y).
Proof.
  apply elem_of_text_words. right.
  rewrite !lower_app.
  change (Py.lower ", " +:+ Py.lower y) with (String "," (" " +:+ Py.lower y)).
  unfold Py.split_on at 2. rewrite split_on_from_sep. apply elem_of_app. right.
  rewrite split_on_space_field. apply list_elem_of_here.
Qed.

Lemma space_token_neq (token word : string) :
  all_chars (fun c => negb (Py.isspace c)) word = true ->
  word <> " " +:+ token.
Proof. intros H ->. discriminate H. Qed.

Lemma empty_topics_token (repo_description : string) :
  "" ∈ text_words repo_description "".
Proof. apply elem_of_text_words. right. apply list_elem_of_here. Qed.

(** ** The loop of [detect_language] *)

Lemma file_endswith_strs (identifiers files : list string) :
  file_endswith identifiers (PyStr <$> files)
  = Return (existsb (fun file => Py.endswith_any file identifiers) files).
Proof.
  induction files as [|file files IH]; [reflexivity|].
  cbn [fmap list_fmap file_endswith existsb].
  destruct (Py.endswith_any file identifiers); [reflexivity|exact IH].
Qed.

Lemma file_endswith_found (identifiers before : list string) (file : string)
    (rest : list pyval) :
  Py.endswith_any file identifiers = true ->
  file_endswith identifiers ((PyStr <$> before) ++ PyStr file :: rest)
  = Return true.
Proof.
  intros H. induction before as [|b before IH]; cbn.
  - rewrite H. reflexivity.
  - destruct (Py.endswith_any b identifiers); [reflexivity|exact IH].
Qed.

(** A file name that is not a text stops the call, unless a file name before
    it has matched. *)
Lemma file_endswith_not_str (identifiers before : list string) (v : pyval)
    (rest : list pyval) :
  is_str v = false ->
  Forall (fun b => Py.endswith_any b identifiers = false) before ->
  file_endswith identifiers ((PyStr <$> before) ++ v :: rest)
  = Raise AttributeError.
Proof.
  intros Hv. induction 1 as [|b before Hb _ IH]; cbn.
  - destruct v; try reflexivity. discriminate Hv.
  - rewrite Hb. exact IH.
Qed.

Lemma detect_loop_first_match (words : gset string) (files : list string)
    (table : keyword_table) :
  detect_loop words (PyStr <$> files) table
  = Return (first_match words files table).
Proof.
  unfold first_match.
  induction table as [|[lang identifiers] table IH]; [reflexivity|].
  cbn [detect_loop List.find]. unfold lang_matches at 1. cbn [snd].
  destruct (keyword_in words identifiers); [reflexivity|].
  rewrite file_endswith_strs. cbn.
  destruct (existsb _ files); [reflexivity|exact IH].
Qed.

Lemma first_match_app (words : gset string) (files : list string)
    (pre post : keyword_table) (entry : string * list string) :
  Forall (fun e => lang_matches words files e = false) pre ->
  lang_matches words files entry = true ->
  first_match words files (pre ++ entry :: post) = Some (fst entry).
Proof.
  unfold first_match. induction 1 as [|e pre He _ IH]; intros M; simpl.
  - rewrite M. reflexivity.
  - rewrite He. exact (IH M).
Qed.

Lemma first_match_none (words : gset string) (files : list string)
    (table : keyword_table) :
  Forall (fun e => lang_matches words files e = false) table ->
  first_match words files table = None.
Proof.
  unfold first_match. induction 1 as [|e pre He _ IH]; simpl; [reflexivity|].
  rewrite He. exact IH.
Qed.

Lemma word_in_table (words : gset string) (identifiers : list string) :
  word_in words (PyStr <$> identifiers) = Return (keyword_in words identifiers).
Proof.
  induction identifiers as [|word rest IH]; [reflexivity|].
  cbn [fmap list_fmap word_in keyword_in existsb].
  destruct (bool_decide (word ∈ words)); [reflexivity|exact IH].
Qed.

Lemma endswith_tuple_table (file : string) (identifiers : list string) :
  endswith_tuple file (PyStr <$> identifiers)
  = Return (Py.endswith_any file identifiers).
Proof.
  induction identifiers as [|suffix rest IH]; [reflexivity|].
  cbn [fmap list_fmap endswith_tuple Py.endswith_any existsb].
  destruct (Py.endswith file suffix); [reflexivity|exact IH].
Qed.

Lemma files_endswith_table (identifiers : list string) (filenames : list pyval) :
  files_endswith (PyStr <$> identifiers) filenames
  = file_endswith identifiers filenames.
Proof.
  induction filenames as [|v filenames IH]; [reflexivity|].
  destruct v; try reflexivity.
  cbn [files_endswith file_endswith]. rewrite endswith_tuple_table.
  destruct (Py.endswith_any s identifiers); [reflexivity|exact IH].
Qed.

(** On the document of a table the loop is the loop over the table. *)
Lemma items_loop_table (words : gset string) (filenames : list pyval)
    (table : keyword_table) :
  items_loop words filenames (table_items table)
  = detect_loop words filenames table.
Proof.
  induction table as [|[lang identifiers] table IH]; [reflexivity|].
  cbn [table_items fmap list_fmap items_loop detect_loop iterate fst snd].
  cbn [mbind outcome_bind]. rewrite word_in_table. cbn [mbind outcome_bind].
  destruct (keyword_in words identifiers); [reflexivity|].
  rewrite files_endswith_table.
  destruct (file_endswith identifiers filenames) as [[|]|e]; cbn;
    [reflexivity|exact IH|reflexivity].
Qed.


Lemma get_lookup (repo : gmap string pyval) (key : string) (v : pyval) :
  repo !! key = Some v -> get repo key = v.
Proof. unfold get. intros ->. reflexivity. Qed.

Lemma detect_language_loaded (repo : gmap string pyval)
    (fs : gmap string json_file) (table : keyword_table)
    (repo_description topics : string) (filenames : list pyval) :
  repo !! "repo_description" = Some (PyStr repo_description) ->
  repo !! "topics" = Some (PyStr topics) ->
  repo !! "filenames" = Some (PyList filenames) ->
  fs !! keywords_path = Some (Keywords table) ->
  detect_language repo fs
  = ([Open keywords_path; Close keywords_path],
     detect_loop (text_words repo_description topics) filenames table).
Proof.
  intros D T F K. unfold detect_language.
  rewrite (get_lookup _ _ _ D), (get_lookup _ _ _ T), (get_lookup _ _ _ F).
  unfold mbind, io_bind, load_json. rewrite K.
  unfold Keywords, lift, keywords_loop.
  rewrite items_loop_table. reflexivity.
Qed.

Lemma detect_language_rejects (repo : gmap string pyval)
    (fs : gmap string json_file) :
  fields_ok repo = false -> detect_language repo fs = ([], Return None).
Proof.
  unfold fields_ok, detect_language.
  destruct (get repo "repo_description"), (get repo "topics"),
    (get repo "filenames"); intros H; try reflexivity; discriminate H.
Qed.

(** ** Sorting *)

Section Sorting.
Variable feature : string.

Lemma insert_desc_perm (r : row) (l : list row) :
  insert_desc feature r l ≡ₚ r :: l.
Proof.
  induction l as [|x l IH]; simpl; [reflexivity|].
  destruct (value feature x <=? value feature r)%Z; [reflexivity|].
  rewrite IH. apply Permutation_swap.
Qed.

Lemma insertion_order_perm (l : list row) : insertion_order feature l ≡ₚ l.
Proof.
  induction l as [|r l IH]; simpl; [reflexivity|].
  rewrite insert_desc_perm, IH. reflexivity.
Qed.

Lemma insert_desc_sorted (r : row) (l : list row) :
  StronglySorted (desc feature) l ->
  StronglySorted (desc feature) (insert_desc feature r l).
Proof.
  induction 1 as [|x l Hl IH Hx]; simpl.
  - repeat constructor.
  - destruct (value feature x <=? value feature r)%Z eqn:Cmp.
    + apply Z.leb_le in Cmp. constructor; [now constructor|].
      constructor; [exact Cmp|].
      revert Hx. apply List.Forall_impl. unfold desc. intros y Hy. lia.
    + apply Z.leb_gt in Cmp. constructor; [exact IH|].
      rewrite insert_desc_perm. constructor; [unfold desc; lia|exact Hx].
Qed.

Lemma insertion_order_sorted (l : list row) :
  StronglySorted (desc feature) (insertion_order feature l).
Proof.
  induction l as [|r l IH]; simpl; [constructor|].
  now apply insert_desc_sorted.
Qed.


End Sorting.

(** Sorting by insertion is one of the orders [sort_values] may give. *)
Lemma insertion_order_descending : descending_order insertion_order.
Proof.
  intros feature l. split; [apply insertion_order_perm|].
  intros _. apply insertion_order_sorted.
Qed.

Lemma head_rows_nonneg (n : Z) (df : dataframe) :
  (0 <= n)%Z -> df_rows (Pd.head n df) = take (Z.to_nat n) (df_rows df).
Proof. intros H. unfold Pd.head. apply Z.leb_le in H. rewrite H. reflexivity. Qed.

Lemma head_rows_take (n : Z) (df : dataframe) :
  exists k : nat, df_rows (Pd.head n df) = take k (df_rows df).
Proof. unfold Pd.head. destruct (0 <=? n)%Z; simpl; eauto. Qed.

Lemma head_rows_negative (n : Z) (df : dataframe) :
  (n < 0)%Z ->
  df_rows (Pd.head n df)
  = take (List.length (df_rows df) - Z.to_nat (- n)) (df_rows df).
Proof. intros H. unfold Pd.head. apply Z.leb_gt in H. rewrite H. reflexivity. Qed.

(** A table without the column is refused, whatever its rows: also the
    empty table. *)
Lemma top_ranked_repos_missing_column (order : string -> list row -> list row)
    (df : dataframe) (feature : string) (n : Z) :
  has_column feature df = false ->
  top_ranked_repos order df feature n = Raise KeyError.
Proof. intros H. unfold top_ranked_repos, Pd.sort_values. rewrite H. reflexivity. Qed.

Lemma top_ranked_repos_head (order : string -> list row -> list row)
    (df : dataframe) (feature : string) (n : Z) :
  has_column feature df = true ->
  top_ranked_repos order df feature n
  = Return (Pd.head n (DataFrame (df_columns df) (order feature (df_rows df)))).
Proof. intros H. unfold top_ranked_repos, Pd.sort_values. rewrite H. reflexivity. Qed.

(** ** [extract_city] *)

Lemma extract_city_str (location : string) :
  extract_city (PyStr location)
  = if String.eqb (without_country location) "" then Return (Some "Egypt")
    else match city_words location with
         | [] => Return None
         | parts => Return (Some (Py.title (Py.join " " parts)))
         end.
Proof.
  unfold extract_city, city_words, without_country.
  destruct (String.eqb _ ""); [reflexivity|].
  destruct (Py.split _); reflexivity.
Qed.

Lemma without_country_empty_iff (location : string) :
  without_country location = ""
  <-> Py.lower (Py.strip location) = "" \/ Py.lower (Py.strip location) = "egypt".
Proof. apply sub_egypt_empty_iff. Qed.

(** C5: a location whose trimmed, lower-cased form is empty once every
    stand-alone "egypt" is deleted gives the literal "Egypt"; so do "Egypt"
    and "  EGYPT  ". *)
Theorem extract_city_country_only :
  (forall location : string,
      without_country location = "" ->
      extract_city (PyStr location) = Return (Some "Egypt"))
  /\ extract_city (PyStr "Egypt") = Return (Some "Egypt")
  /\ extract_city (PyStr "  EGYPT  ") = Return (Some "Egypt").
Proof.
  split; [|split; reflexivity].
  intros location H. rewrite extract_city_str, H. reflexivity.
Qed.

Lemma extract_city_country_only_witness :
  without_country "  EGYPT  " = ""
  /\ extract_city (PyStr "  EGYPT  ") = Return (Some "Egypt").
Proof.
  split; [reflexivity|].
  apply (proj1 extract_city_country_only "  EGYPT  "). reflexivity.
Defined.

(** C6: when that form is not empty, every character that is not a letter
    or whitespace is deleted; the words that remain, if any, are returned
    joined by single spaces with their first letters in upper case, and
    [None] is returned when no word remains. *)
Theorem extract_city_words :
  (forall location : string,
      without_country location <> "" ->
      list_ascii_of_string (Re.sub_non_letters (without_country location))
      = List.filter Re.letter_or_space
          (list_ascii_of_string (without_country location))
      /\ (city_words location <> [] ->
          extract_city (PyStr location)
          = Return (Some (Py.title (Py.join " " (city_words location))))
          /\ Py.title (Py.join " " (city_words location))
             = Py.join " " (capitalize <$> city_words location))
      /\ (city_words location = [] ->
          extract_city (PyStr location) = Return None))
  /\ extract_city (PyStr "Cairo, Egypt") = Return (Some "Cairo")
  /\ extract_city (PyStr "!!!") = Return None.
Proof.
  split; [|split; reflexivity].
  intros location Hne. split; [apply sub_non_letters_filter|].
  apply String.eqb_neq in Hne.
  split; intros Hw; rewrite extract_city_str, Hne.
  - split; [|apply title_join, city_words_lower].
    destruct (city_words location); [congruence|reflexivity].
  - rewrite Hw. reflexivity.
Qed.

Lemma extract_city_words_witness :
  without_country "new cairo, Egypt" <> ""
  /\ city_words "new cairo, Egypt" <> []
  /\ extract_city (PyStr "new cairo, Egypt") = Return (Some "New Cairo").
Proof.
  assert (without_country "new cairo, Egypt" <> "") as Hne
    by (vm_compute; discriminate).
  assert (city_words "new cairo, Egypt" <> []) as Hw
    by (vm_compute; discriminate).
  split; [exact Hne|]. split; [exact Hw|].
  destruct (proj1 extract_city_words "new cairo, Egypt" Hne) as (_ & H & _).
  destruct (H Hw) as [-> _]. reflexivity.
Defined.

(** C7: [extract_city] returns for every value, and returns [None] for every
    value that is not a text. *)
Theorem extract_city_total (location : pyval) :
  (exists result : option string, extract_city location = Return result)
  /\ (is_str location = false -> extract_city location = Return None).
Proof.
  split.
  - destruct location; try (eexists; reflexivity).
    rewrite extract_city_str.
    destruct (String.eqb _ ""); [eexists; reflexivity|].
    destruct (city_words s); eexists; reflexivity.
  - destruct location; intros H; try reflexivity. discriminate H.
Qed.

Lemma extract_city_total_witness :
  is_str (PyFloat Floats.SpecFloat.S754_nan) = false
  /\ extract_city (PyFloat Floats.SpecFloat.S754_nan) = Return None.
Proof.
  split; [reflexivity|].
  apply (proj2 (extract_city_total (PyFloat Floats.SpecFloat.S754_nan))).
  reflexivity.
Defined.

(** ** [detect_language] *)

Lemma keyword_in_spec (words : gset string) (identifiers : list string) :
  keyword_in words identifiers = true
  <-> exists word, word ∈ identifiers /\ word ∈ words.
Proof.
  unfold keyword_in. rewrite existsb_exists. split.
  - intros (word & Hin & Hw). exists word. split; [now apply list_elem_of_In|].
    now apply bool_decide_eq_true in Hw.
  - intros (word & Hin & Hw). exists word. split; [now apply list_elem_of_In|].
    now apply bool_decide_eq_true.
Qed.

Lemma suffix_in_spec (identifiers files : list string) :
  existsb (fun file => Py.endswith_any file identifiers) files = true
  <-> exists file identifier prefix,
      file ∈ files /\ identifier ∈ identifiers
      /\ file = prefix +:+ identifier.
Proof.
  rewrite existsb_exists. unfold Py.endswith_any. split.
  - intros (file & Hf & H). apply existsb_exists in H as (id & Hid & H).
    apply endswith_spec in H as [p Hp].
    exists file, id, p. repeat split; try apply list_elem_of_In; assumption.
  - intros (file & id & p & Hf & Hid & Hp). exists file.
    split; [now apply list_elem_of_In|]. apply existsb_exists. exists id.
    split; [now apply list_elem_of_In|]. apply endswith_spec. eauto.
Qed.

Lemma detect_language_strs (repo : gmap string pyval)
    (fs : gmap string json_file) (table : keyword_table)
    (repo_description topics : string) (filenames : list string) :
  repo !! "repo_description" = Some (PyStr repo_description) ->
  repo !! "topics" = Some (PyStr topics) ->
  repo !! "filenames" = Some (PyList (PyStr <$> filenames)) ->
  fs !! keywords_path = Some (Keywords table) ->
  detect_language repo fs
  = ([Open keywords_path; Close keywords_path],
     Return (first_match (text_words repo_description topics) filenames table)).
Proof.
  intros D T F K. rewrite (detect_language_loaded _ _ _ _ _ _ D T F K).
  rewrite detect_loop_first_match. reflexivity.
Qed.

(** C1, as the code has it: the language returned is the first one of the
    table that has an identifier among the candidate words or an identifier
    ending a file name; a language with an identifier among the candidate
    words is returned when no language before it matches in either way;
    [None] is returned when no language matches in either way. *)
Theorem detect_language_first_match :
  (forall (repo : gmap string pyval) (fs : gmap string json_file)
          (table : keyword_table) (repo_description topics : string)
          (filenames : list string),
      repo !! "repo_description" = Some (PyStr repo_description) ->
      repo !! "topics" = Some (PyStr topics) ->
      repo !! "filenames" = Some (PyList (PyStr <$> filenames)) ->
      fs !! keywords_path = Some (Keywords table) ->
      let words := text_words repo_description topics in
      snd (detect_language repo fs)
      = Return (first_match words filenames table)
      /\ (forall pre lang identifiers post,
             table = pre ++ (lang, identifiers) :: post ->
             Forall (fun e => lang_matches words filenames e = false) pre ->
             (exists word, word ∈ identifiers /\ word ∈ words) ->
             snd (detect_language repo fs) = Return (Some lang))
      /\ (Forall (fun e => lang_matches words filenames e = false) table ->
          snd (detect_language repo fs) = Return None))
  /\ snd (detect_language (record "a python tool" "" []) example_fs)
     = Return (Some "Python").
Proof.
  split; [|reflexivity].
  intros repo fs table d t files D T F K words.
  rewrite (detect_language_strs _ _ _ _ _ _ D T F K). cbn [snd]. fold words.
  split; [reflexivity|]. split.
  - intros pre lang ids post -> Hpre Hkw. f_equal.
    apply (first_match_app _ _ _ _ (lang, ids) Hpre).
    unfold lang_matches. cbn [snd].
    apply keyword_in_spec in Hkw. rewrite Hkw. reflexivity.
  - intros Hnone. f_equal. now apply first_match_none.
Qed.

Lemma detect_language_first_match_witness :
  snd (detect_language (record "a Golang CLI" "" ["README.md"]) example_fs)
  = Return (Some "Go").
Proof.
  destruct (proj1 detect_language_first_match
              (record "a Golang CLI" "" ["README.md"]) example_fs example_table
              "a Golang CLI" "" ["README.md"]
              eq_refl eq_refl eq_refl eq_refl) as (_ & H & _).
  apply (H [("Python", ["python"; ".py"])] "Go" ["golang"; ".go"] []).
  - reflexivity.
  - repeat constructor.
  - exists "golang". split; [apply list_elem_of_here|].
    apply (bool_decide_unpack _). vm_compute. exact I.
Defined.

(** The reading of C1 that the code does not have: the language returned is
    not always the first one with an identifier among the candidate words. *)
Lemma detect_language_keyword_first_counterexample :
  first_keyword_language (text_words "golang" "") example_table = Some "Go"
  /\ snd (detect_language (record "golang" "" ["a.py"]) example_fs)
     = Return (Some "Python")
  /\ snd (detect_language (record "golang" "" ["a.py"]) example_fs)
     <> Return (first_keyword_language (text_words "golang" "") example_table).
Proof. split; [|split]; [reflexivity|reflexivity|discriminate]. Qed.

(** C2, as the code has it: when the loop is at a language none of whose
    identifiers is a candidate word, and some file name ends with one of its
    identifiers, that language is returned, provided the file names looked
    at are texts: all of them when languages before it were tried, and the
    ones before the first such file name when it is the first language of
    the table (the file names after that one are not looked at). *)
Theorem detect_language_filename_suffix :
  (forall (repo : gmap string pyval) (fs : gmap string json_file)
          (repo_description topics : string) (filenames : list string)
          (pre post : keyword_table) (lang : string) (identifiers : list string),
      repo !! "repo_description" = Some (PyStr repo_description) ->
      repo !! "topics" = Some (PyStr topics) ->
      repo !! "filenames" = Some (PyList (PyStr <$> filenames)) ->
      fs !! keywords_path = Some (Keywords (pre ++ (lang, identifiers) :: post)) ->
      let words := text_words repo_description topics in
      Forall (fun e => lang_matches words filenames e = false) pre ->
      (forall word, word ∈ identifiers -> word ∉ words) ->
      (exists file identifier prefix,
          file ∈ filenames /\ identifier ∈ identifiers
          /\ file = prefix +:+ identifier) ->
      snd (detect_language repo fs) = Return (Some lang))
  /\ (forall (repo : gmap string pyval) (fs : gmap string json_file)
             (repo_description topics : string) (before : list string)
             (file : string) (rest : list pyval) (post : keyword_table)
             (lang : string) (identifiers : list string),
         repo !! "repo_description" = Some (PyStr repo_description) ->
         repo !! "topics" = Some (PyStr topics) ->
         repo !! "filenames"
         = Some (PyList ((PyStr <$> before) ++ PyStr file :: rest)) ->
         fs !! keywords_path = Some (Keywords ((lang, identifiers) :: post)) ->
         (forall word,
             word ∈ identifiers ->
             word ∉ text_words repo_description topics) ->
         (exists identifier prefix,
             identifier ∈ identifiers /\ file = prefix +:+ identifier) ->
         snd (detect_language repo fs) = Return (Some lang))
  /\ snd (detect_language (record "" "" ["main.go"]) example_fs)
     = Return (Some "Go").
Proof.
  split; [|split; [|reflexivity]].
  - intros repo fs d t files pre post lang ids D T F K words Hpre _ Hsuf.
    rewrite (detect_language_strs _ _ _ _ _ _ D T F K). cbn [snd]. f_equal.
    apply (first_match_app _ _ _ _ (lang, ids) Hpre).
    unfold lang_matches. cbn [snd].
    apply suffix_in_spec in Hsuf. rewrite Hsuf. apply orb_true_r.
  - intros repo fs d t before file rest post lang ids D T F K Hkw
      (id & p & Hid & Hp).
    rewrite (detect_language_loaded _ _ _ _ _ _ D T F K). cbn [snd detect_loop].
    destruct (keyword_in (text_words d t) ids) eqn:E.
    + apply keyword_in_spec in E as (word & Hin & Hw).
      destruct (Hkw word Hin Hw).
    + rewrite file_endswith_found; [reflexivity|].
      apply existsb_exists. exists id. split; [now apply list_elem_of_In|].
      apply endswith_spec. eauto.
Qed.

(** The reading of C2 that the code does not have: a record passes the
    field check with any list as its file names, and a file name that is no
    text, met before the one that matches, ends the call with an
    exception. *)
Lemma detect_language_filename_suffix_counterexample :
  fields_ok
    (<["filenames" := PyList [PyStr "README.md"; PyNone; PyStr "main.py"]]>
       (record "a tool" "" [])) = true
  /\ (forall word, word ∈ ["python"; ".py"] -> word ∉ text_words "a tool" "")
  /\ Py.endswith "main.py" ".py" = true
  /\ snd (detect_language
            (<["filenames" := PyList [PyStr "README.md"; PyNone; PyStr "main.py"]]>
               (record "a tool" "" []))
            example_fs) = Raise AttributeError
  /\ snd (detect_language
            (<["filenames" := PyList [PyStr "README.md"; PyNone; PyStr "main.py"]]>
               (record "a tool" "" []))
            example_fs) <> Return (Some "Python").
Proof.
  split; [reflexivity|]. split; [|split; [reflexivity|split]].
  - intros word Hw. apply (bool_decide_unpack _).
    repeat (apply elem_of_cons in Hw as [->|Hw]; [vm_compute; exact I|]).
    inversion Hw.
  - reflexivity.
  - discriminate.
Qed.

Lemma detect_language_filename_suffix_witness :
  (exists file identifier prefix,
      file ∈ ["setup.cfg"; "main.go"] /\ identifier ∈ ["golang"; ".go"]
      /\ file = prefix +:+ identifier)
  /\ snd (detect_language (record "" "" ["setup.cfg"; "main.go"]) example_fs)
     = Return (Some "Go").
Proof.
  assert (exists file identifier prefix,
             file ∈ ["setup.cfg"; "main.go"] /\ identifier ∈ ["golang"; ".go"]
             /\ file = prefix +:+ identifier) as Hsuf.
  { exists "main.go", ".go", "main". repeat split.
    - apply list_elem_of_further, list_elem_of_here.
    - apply list_elem_of_further, list_elem_of_here. }
  split; [exact Hsuf|].
  apply (proj1 detect_language_filename_suffix
           (record "" "" ["setup.cfg"; "main.go"]) example_fs "" ""
           ["setup.cfg"; "main.go"] [("Python", ["python"; ".py"])] []
           "Go" ["golang"; ".go"] eq_refl eq_refl eq_refl eq_refl).
  - repeat constructor.
  - intros word Hw. apply (bool_decide_unpack _).
    repeat (apply elem_of_cons in Hw as [->|Hw]; [vm_compute; exact I|]).
    inversion Hw.
  - exact Hsuf.
Defined.

(** C3: of the languages that match a record the first one of the table is
    returned, and records with the same candidate words and the same file
    names get the same result. *)
Theorem detect_language_first_match_wins :
  (forall (repo : gmap string pyval) (fs : gmap string json_file)
          (repo_description topics : string) (filenames : list string)
          (pre mid post : keyword_table) (first second : string * list string),
      repo !! "repo_description" = Some (PyStr repo_description) ->
      repo !! "topics" = Some (PyStr topics) ->
      repo !! "filenames" = Some (PyList (PyStr <$> filenames)) ->
      fs !! keywords_path
      = Some (Keywords (pre ++ first :: mid ++ second :: post)) ->
      let words := text_words repo_description topics in
      Forall (fun e => lang_matches words filenames e = false) pre ->
      lang_matches words filenames first = true ->
      lang_matches words filenames second = true ->
      snd (detect_language repo fs) = Return (Some (fst first)))
  /\ (forall (repo1 repo2 : gmap string pyval) (fs : gmap string json_file)
             (description1 topics1 description2 topics2 : string)
             (filenames : list pyval),
         repo1 !! "repo_description" = Some (PyStr description1) ->
         repo1 !! "topics" = Some (PyStr topics1) ->
         repo1 !! "filenames" = Some (PyList filenames) ->
         repo2 !! "repo_description" = Some (PyStr description2) ->
         repo2 !! "topics" = Some (PyStr topics2) ->
         repo2 !! "filenames" = Some (PyList filenames) ->
         text_words description1 topics1 = text_words description2 topics2 ->
         detect_language repo1 fs = detect_language repo2 fs).
Proof.
  split.
  - intros repo fs d t files pre mid post e1 e2 D T F K words Hpre H1 _.
    rewrite (detect_language_strs _ _ _ _ _ _ D T F K). cbn [snd]. f_equal.
    now apply first_match_app.
  - intros repo1 repo2 fs d1 t1 d2 t2 files D1 T1 F1 D2 T2 F2 Hw.
    unfold detect_language.
    rewrite (get_lookup _ _ _ D1), (get_lookup _ _ _ T1), (get_lookup _ _ _ F1),
      (get_lookup _ _ _ D2), (get_lookup _ _ _ T2), (get_lookup _ _ _ F2), Hw.
    reflexivity.
Qed.

Lemma detect_language_first_match_wins_witness :
  lang_matches (text_words "python and golang" "") ["main.go"]
    ("Python", ["python"; ".py"]) = true
  /\ lang_matches (text_words "python and golang" "") ["main.go"]
       ("Go", ["golang"; ".go"]) = true
  /\ snd (detect_language (record "python and golang" "" ["main.go"]) example_fs)
     = Return (Some "Python").
Proof.
  split; [reflexivity|]. split; [reflexivity|].
  apply (proj1 detect_language_first_match_wins
           (record "python and golang" "" ["main.go"]) example_fs
           "python and golang" "" ["main.go"] [] [] []
           ("Python", ["python"; ".py"]) ("Go", ["golang"; ".go"])
           eq_refl eq_refl eq_refl eq_refl).
  - constructor.
  - reflexivity.
  - reflexivity.
Defined.

Lemma fields_ok_false (repo : gmap string pyval) :
  is_str (get repo "repo_description") = false
  \/ is_str (get repo "topics") = false
  \/ is_list (get repo "filenames") = false ->
  fields_ok repo = false.
Proof.
  unfold fields_ok. intros [-> | [-> | ->]]; [reflexivity| |].
  - rewrite andb_false_r. reflexivity.
  - apply andb_false_r.
Qed.

Lemma get_absent (repo : gmap string pyval) (key : string) :
  repo !! key = None -> get repo key = PyNone.
Proof. unfold get. intros ->. reflexivity. Qed.

(** C4: a record whose description or topics is not a text, or whose file
    names are not a list, or that lacks one of the three, gets [None]
    whatever its other fields are. *)
Theorem detect_language_requires_fields :
  (forall (repo : gmap string pyval) (fs : gmap string json_file),
      is_str (get repo "repo_description") = false
      \/ is_str (get repo "topics") = false
      \/ is_list (get repo "filenames") = false ->
      snd (detect_language repo fs) = Return None)
  /\ (forall (repo : gmap string pyval) (fs : gmap string json_file),
         repo !! "repo_description" = None \/ repo !! "topics" = None
         \/ repo !! "filenames" = None ->
         snd (detect_language repo fs) = Return None)
  /\ snd (detect_language (delete "filenames" (record "a python tool" "" []))
            example_fs) = Return None.
Proof.
  split; [|split; [|reflexivity]].
  - intros repo fs H.
    rewrite (detect_language_rejects _ _ (fields_ok_false _ H)). reflexivity.
  - intros repo fs H. rewrite detect_language_rejects; [reflexivity|].
    apply fields_ok_false.
    destruct H as [H | [H | H]]; rewrite (get_absent _ _ H); auto.
Qed.

Lemma detect_language_requires_fields_witness :
  is_str (get (<["repo_description" := PyInt 7]> (record "" "python" ["a.py"]))
            "repo_description") = false
  /\ snd (detect_language
            (<["repo_description" := PyInt 7]> (record "" "python" ["a.py"]))
            example_fs) = Return None.
Proof.
  split; [reflexivity|].
  apply (proj1 detect_language_requires_fields). left. reflexivity.
Defined.

Lemma detect_language_missing_file (repo : gmap string pyval) :
  fields_ok repo = true ->
  detect_language repo ∅ = ([Open keywords_path], Raise FileNotFoundError).
Proof.
  unfold fields_ok, detect_language.
  destruct (get repo "repo_description"), (get repo "topics"),
    (get repo "filenames"); intros H; try discriminate H. reflexivity.
Qed.

Lemma detect_language_malformed_file (repo : gmap string pyval) :
  fields_ok repo = true ->
  detect_language repo {[ keywords_path := Malformed ]}
  = ([Open keywords_path; Close keywords_path], Raise JSONDecodeError).
Proof.
  unfold fields_ok, detect_language.
  destruct (get repo "repo_description"), (get repo "topics"),
    (get repo "filenames"); intros H; try discriminate H. reflexivity.
Qed.

(** C10: the fields are checked before the keyword file is opened: a record
    that fails the check gets [None] with no file operation, also when the
    file is missing or malformed. *)
Theorem detect_language_checks_before_io (repo : gmap string pyval) :
  fields_ok repo = false ->
  (forall fs : gmap string json_file,
      detect_language repo fs = ([], Return None))
  /\ detect_language repo ∅ = ([], Return None)
  /\ detect_language repo {[ keywords_path := Malformed ]} = ([], Return None).
Proof.
  intros H. repeat split; intros; now apply detect_language_rejects.
Qed.

Lemma detect_language_checks_before_io_witness :
  fields_ok (<["topics" := PyNone]> (record "python" "" [])) = false
  /\ detect_language (<["topics" := PyNone]> (record "python" "" [])) ∅
     = ([], Return None).
Proof.
  assert (fields_ok (<["topics" := PyNone]> (record "python" "" [])) = false)
    as H by reflexivity.
  split; [exact H|].
  exact (proj1 (proj2 (detect_language_checks_before_io _ H))).
Defined.

(** C9: the fields of [topics] are not trimmed: after a comma followed by a
    space the candidate word starts with that space, so it is none of the
    identifiers without whitespace; and an empty [topics] puts the empty
    string among the candidate words. *)
Theorem topics_tokens_untrimmed :
  (forall repo_description x y : string,
      (" " +:+ List.hd "" (Py.split_on "," (Py.lower y)))
        ∈ text_words repo_description (x +:+ ", " +:+ y))
  /\ (forall token identifier : string,
         all_chars (fun c => negb (Py.isspace c)) identifier = true ->
         identifier <> " " +:+ token)
  /\ " python" ∈ text_words "" "a, python"
  /\ ("python" ∉ text_words "" "a, python")
  /\ snd (detect_language (record "" "a, python" []) example_fs) = Return None
  /\ (forall repo_description : string, "" ∈ text_words repo_description "").
Proof.
  split; [apply topics_space_token|].
  split; [apply space_token_neq|].
  split; [apply (topics_space_token "" "a" "python")|].
  split; [apply (bool_decide_unpack _); vm_compute; exact I|].
  split; [reflexivity|apply empty_topics_token].
Qed.

Lemma topics_tokens_untrimmed_witness :
  all_chars (fun c => negb (Py.isspace c)) "python" = true
  /\ "python" <> " " +:+ "python".
Proof.
  split; [reflexivity|].
  apply (proj1 (proj2 topics_tokens_untrimmed) "python" "python"). reflexivity.
Defined.

(** ** [top_ranked_repos] *)



(** * Further properties of the code *)

(** ** More on the [str] methods *)

Lemma isspace_lower_char (c : ascii) : Py.isspace (Py.lower_char c) = Py.isspace c.
Proof. each_char c. Qed.

Lemma lower_char_idem (c : ascii) : Py.lower_char (Py.lower_char c) = Py.lower_char c.
Proof. each_char c. Qed.

Lemma lower_char_not_isupper (c : ascii) : Py.isupper (Py.lower_char c) = false.
Proof. each_char c. Qed.

Lemma lower_upper_char (c : ascii) :
  Py.is_ascii_lower c = true -> Py.lower_char (Py.upper_ascii_char c) = c.
Proof. each_char c. Qed.

Lemma upper_char_upper (c : ascii) :
  Py.is_ascii_lower c = true -> Py.is_ascii_upper (Py.upper_ascii_char c) = true.
Proof. each_char c. Qed.

Lemma lower_not_space (c : ascii) :
  Py.is_ascii_lower c = true -> Py.isspace c = false.
Proof. each_char c. Qed.

Lemma upper_not_space (c : ascii) :
  Py.is_ascii_upper c = true -> Py.isspace c = false.
Proof. each_char c. Qed.

Lemma lower_is_word (c : ascii) :
  Py.is_ascii_lower c = true -> Re.is_word c = true.
Proof. each_char c. Qed.

Lemma lower_letter_or_space (c : ascii) :
  Py.is_ascii_lower c = true -> Re.letter_or_space c = true.
Proof. each_char c. Qed.

Lemma lower_idem (s : string) : Py.lower (Py.lower s) = Py.lower s.
Proof.
  induction s as [|c s IH]; simpl; [reflexivity|].
  rewrite lower_char_idem, IH. reflexivity.
Qed.

Lemma lower_fixed (s : string) :
  all_chars Py.is_ascii_lower s = true -> Py.lower s = s.
Proof.
  induction s as [|c s IH]; simpl; [reflexivity|].
  intros H. apply andb_prop in H as [Hc Hs].
  rewrite (lower_char_lower _ Hc), (IH Hs). reflexivity.
Qed.

Lemma lower_empty (s : string) : Py.lower s = "" -> s = "".
Proof. destruct s; [reflexivity|discriminate]. Qed.

Lemma lstrip_lower (s : string) : Py.lower (Py.lstrip s) = Py.lstrip (Py.lower s).
Proof.
  induction s as [|c s IH]; simpl; [reflexivity|].
  rewrite isspace_lower_char. destruct (Py.isspace c); [exact IH|reflexivity].
Qed.

Lemma rstrip_lower (s : string) : Py.lower (Py.rstrip s) = Py.rstrip (Py.lower s).
Proof.
  induction s as [|c s IH]; simpl; [reflexivity|].
  rewrite <- IH, isspace_lower_char.
  destruct (Py.rstrip s) as [|c' r']; simpl; [|reflexivity].
  destruct (Py.isspace c); reflexivity.
Qed.

Lemma strip_lower (s : string) : Py.lower (Py.strip s) = Py.strip (Py.lower s).
Proof. unfold Py.strip. rewrite rstrip_lower, lstrip_lower. reflexivity. Qed.

Lemma lstrip_spaces (s : string) :
  all_chars Py.isspace s = true -> Py.lstrip s = "".
Proof.
  induction s as [|c s IH]; simpl; [reflexivity|].
  intros H. apply andb_prop in H as [-> Hs]. exact (IH Hs).
Qed.

Lemma rstrip_no_space (s : string) : no_space s = true -> Py.rstrip s = s.
Proof.
  unfold no_space. induction s as [|c s IH]; simpl; [reflexivity|].
  intros H. apply andb_prop in H as [Hc Hs]. rewrite (IH Hs).
  apply negb_true_iff in Hc. rewrite Hc. destruct s; reflexivity.
Qed.

Lemma rstrip_app_fixed (x y : string) :
  Py.rstrip y = y -> y <> "" -> Py.rstrip (x +:+ y) = x +:+ y.
Proof.
  intros Hy Hne. induction x as [|c x IH]; [exact Hy|].
  rewrite app_cons. simpl. rewrite IH.
  destruct (x +:+ y) eqn:E; [|reflexivity].
  destruct x; [rewrite app_nil in E; congruence|discriminate E].
Qed.

(** ** Words joined by single spaces *)

Lemma join_cons (sep w w' : string) (ws : list string) :
  Py.join sep (w :: w' :: ws) = w +:+ sep +:+ Py.join sep (w' :: ws).
Proof. reflexivity. Qed.

Lemma lower_word_no_space (w : string) :
  all_chars Py.is_ascii_lower w = true -> no_space w = true.
Proof.
  apply all_chars_impl. intros c Hc. rewrite (lower_not_space _ Hc). reflexivity.
Qed.

Lemma split_from_word (w tail : string) :
  forall acc,
    no_space w = true ->
    Py.split_from acc (w +:+ tail) = Py.split_from (acc +:+ w) tail.
Proof.
  unfold no_space. induction w as [|c w IH]; intros acc H.
  - rewrite app_nil, app_empty_r. reflexivity.
  - simpl in H. apply andb_prop in H as [Hc Hw]. apply negb_true_iff in Hc.
    rewrite app_cons. cbn [Py.split_from]. rewrite Hc, (IH _ Hw).
    unfold Py.snoc. rewrite app_assoc_str, app_cons, app_nil. reflexivity.
Qed.

Lemma split_from_spaces (acc tail : string) :
  all_chars Py.isspace tail = true ->
  Py.split_from acc tail = match acc with "" => [] | _ => [acc] end.
Proof.
  revert acc. induction tail as [|c tail IH]; intros acc H; [reflexivity|].
  simpl in H. apply andb_prop in H as [Hc Ht].
  cbn [Py.split_from]. rewrite Hc, (IH "" Ht). destruct acc; reflexivity.
Qed.

Lemma split_join_spaces (ws : list string) (tail : string) :
  Forall (fun w => w <> "" /\ no_space w = true) ws ->
  all_chars Py.isspace tail = true ->
  Py.split (Py.join " " ws +:+ tail) = ws.
Proof.
  unfold Py.split. intros Hws Ht.
  induction Hws as [|w ws [Hne Hw] Hws IH].
  - rewrite app_nil. apply (split_from_spaces "" tail Ht).
  - destruct ws as [|w' ws].
    + cbn [Py.join]. rewrite (split_from_word _ _ _ Hw), app_nil.
      rewrite (split_from_spaces _ _ Ht). destruct w; [congruence|reflexivity].
    + rewrite join_cons, !app_assoc_str, (split_from_word _ _ _ Hw), app_nil.
      rewrite app_cons, app_nil. cbn [Py.split_from].
      change (Py.isspace " ") with true. cbv iota. rewrite IH.
      destruct w; [congruence|reflexivity].
Qed.

Lemma split_join (ws : list string) :
  Forall (fun w => w <> "" /\ no_space w = true) ws ->
  Py.split (Py.join " " ws) = ws.
Proof.
  intros H. rewrite <- (app_empty_r (Py.join " " ws)).
  now apply split_join_spaces.
Qed.

Lemma all_chars_join (P : ascii -> bool) (ws : list string) :
  P " "%char = true ->
  Forall (fun w => all_chars P w = true) ws ->
  all_chars P (Py.join " " ws) = true.
Proof.
  intros Hsp. induction 1 as [|w ws Hw Hws IH]; [reflexivity|].
  destruct ws as [|w' ws]; [exact Hw|].
  rewrite join_cons, !all_chars_app, Hw, IH. simpl. rewrite Hsp. reflexivity.
Qed.

Lemma join_not_empty (ws : list string) :
  Forall (fun w => w <> "") ws -> ws <> [] -> Py.join " " ws <> "".
Proof.
  intros H Hne. destruct H as [|w ws Hw Hws]; [congruence|].
  destruct w as [|c w]; [congruence|].
  destruct ws; [discriminate|]. rewrite join_cons, app_cons. discriminate.
Qed.

Lemma lower_join (ws : list string) :
  Py.lower (Py.join " " ws) = Py.join " " (Py.lower <$> ws).
Proof.
  induction ws as [|w ws IH]; [reflexivity|].
  destruct ws as [|w' ws]; [reflexivity|].
  rewrite join_cons, !lower_app, IH. reflexivity.
Qed.

Lemma lower_capitalize (w : string) :
  all_chars Py.is_ascii_lower w = true -> Py.lower (capitalize w) = w.
Proof.
  destruct w as [|c w]; [reflexivity|]. simpl. intros H.
  apply andb_prop in H as [Hc Hw].
  rewrite (lower_upper_char _ Hc), (lower_fixed _ Hw). reflexivity.
Qed.

Lemma lower_capitalized (ws : list string) :
  Forall is_lower_word ws -> Py.lower <$> (capitalize <$> ws) = ws.
Proof.
  induction 1 as [|w ws [_ Hw] _ IH]; [reflexivity|].
  cbn [fmap list_fmap] in *. rewrite (lower_capitalize _ Hw). f_equal. exact IH.
Qed.

Lemma capitalize_capitalized (w : string) :
  is_lower_word w -> is_capitalized (capitalize w) = true.
Proof.
  intros [Hne H]. destruct w as [|c w]; [congruence|]. simpl in *.
  apply andb_prop in H as [Hc Hw]. rewrite (upper_char_upper _ Hc), Hw. reflexivity.
Qed.

Lemma capitalized_no_space (w : string) :
  is_capitalized w = true -> w <> "" /\ no_space w = true.
Proof.
  destruct w as [|c w]; [discriminate|]. simpl. intros H.
  apply andb_prop in H as [Hc Hw]. split; [discriminate|].
  unfold no_space. simpl. rewrite (upper_not_space _ Hc). simpl.
  now apply lower_word_no_space.
Qed.

Lemma sub_non_letters_fixed (s : string) :
  all_chars Re.letter_or_space s = true -> Re.sub_non_letters s = s.
Proof.
  induction s as [|c s IH]; simpl; [reflexivity|].
  intros H. apply andb_prop in H as [-> Hs]. rewrite (IH Hs). reflexivity.
Qed.

(** ** Where [\b(egypt)\b] does not match *)

Lemma match_egypt_no_prefix (prev : option ascii) (s : string) :
  String.prefix "egypt" s = false -> Re.match_egypt prev s = false.
Proof. unfold Re.match_egypt. intros ->. rewrite andb_false_r. reflexivity. Qed.

Lemma sub_egypt_from_copy (prev : option ascii) (c : ascii) (r : string) :
  Re.match_egypt prev (String c r) = false ->
  Re.sub_egypt_from 0 prev (String c r)
  = String c (Re.sub_egypt_from 0 (Some c) r).
Proof. intros H. cbn [Re.sub_egypt_from]. rewrite H. reflexivity. Qed.

Lemma sub_egypt_inside (w tail : string) :
  forall p,
    Re.is_word p = true ->
    all_chars Py.is_ascii_lower w = true ->
    exists q, Re.is_word q = true
      /\ Re.sub_egypt_from 0 (Some p) (w +:+ tail)
         = w +:+ Re.sub_egypt_from 0 (Some q) tail.
Proof.
  induction w as [|c w IH]; intros p Hp H.
  - exists p. split; [exact Hp|reflexivity].
  - simpl in H. apply andb_prop in H as [Hc Hw].
    destruct (IH c (lower_is_word _ Hc) Hw) as (q & Hq & E).
    exists q. split; [exact Hq|].
    rewrite !app_cons, sub_egypt_from_copy, E; [reflexivity|].
    unfold Re.match_egypt, Re.word_boundary. cbn [Re.head Re.is_word_opt].
    rewrite Hp, (lower_is_word _ Hc). reflexivity.
Qed.

Lemma not_egypt_word (w tail rest : string) :
  all_chars Py.is_ascii_lower w = true -> w <> "egypt" ->
  Re.is_word_opt (Re.head tail) = false ->
  Re.is_word_opt (Re.head rest) = false ->
  w +:+ tail <> "egypt" +:+ rest.
Proof.
  intros Hw Hne Ht Hr E.
  change ("egypt" +:+ rest)
    with (String "e" (String "g" (String "y" (String "p" (String "t" rest))))) in E.
  destruct w as [|c1 [|c2 [|c3 [|c4 [|c5 [|c6 w]]]]]];
    rewrite ?app_cons, ?app_nil in E.
  - rewrite E in Ht. discriminate Ht.
  - injection E as -> E. rewrite E in Ht. discriminate Ht.
  - injection E as -> -> E. rewrite E in Ht. discriminate Ht.
  - injection E as -> -> -> E. rewrite E in Ht. discriminate Ht.
  - injection E as -> -> -> -> E. rewrite E in Ht. discriminate Ht.
  - injection E as -> -> -> -> -> E. apply Hne. reflexivity.
  - injection E as -> -> -> -> -> E. rewrite <- E in Hr.
    simpl in Hw. apply andb_prop in Hw as [H6 _].
    cbn in Hr. rewrite (lower_is_word _ H6) in Hr. discriminate Hr.
Qed.

Lemma sub_egypt_word (w tail : string) :
  is_lower_word w -> w <> "egypt" ->
  Re.is_word_opt (Re.head tail) = false ->
  exists q, Re.is_word q = true
    /\ forall prev,
         Re.sub_egypt_from 0 prev (w +:+ tail)
         = w +:+ Re.sub_egypt_from 0 (Some q) tail.
Proof.
  intros [Hne Hw] Hneq Ht.
  assert (forall prev, Re.match_egypt prev (w +:+ tail) = false) as NoMatch.
  { intros prev. destruct (Re.match_egypt prev (w +:+ tail)) eqn:M; [|reflexivity].
    destruct (match_egypt_inv _ _ M) as (rest & E & _ & B).
    exfalso. apply (not_egypt_word w tail rest Hw Hneq Ht); [|exact E].
    unfold Re.word_boundary in B. cbn [Re.is_word_opt] in B.
    destruct (Re.is_word_opt (Re.head rest)); [discriminate B|reflexivity]. }
  destruct w as [|c w]; [congruence|].
  simpl in Hw. apply andb_prop in Hw as [Hc Hw].
  destruct (sub_egypt_inside w tail c (lower_is_word _ Hc) Hw) as (q & Hq & E).
  exists q. split; [exact Hq|]. intros prev.
  specialize (NoMatch prev). rewrite app_cons in *.
  rewrite (sub_egypt_from_copy _ _ _ NoMatch), E. reflexivity.
Qed.

Lemma sub_egypt_join (ws : list string) (tail : string) :
  Forall is_lower_word ws -> "egypt" ∉ ws -> ws <> [] ->
  Re.is_word_opt (Re.head tail) = false ->
  exists q, Re.is_word q = true
    /\ forall prev,
         Re.sub_egypt_from 0 prev (Py.join " " ws +:+ tail)
         = Py.join " " ws +:+ Re.sub_egypt_from 0 (Some q) tail.
Proof.
  intros Hws. induction Hws as [|w ws Hw Hws IH]; intros Hnot Hne Ht; [congruence|].
  apply not_elem_of_cons in Hnot as [Hw' Hnot].
  assert (w <> "egypt") as Hw'' by (intros H; apply Hw'; symmetry; exact H).
  destruct ws as [|w' ws].
  - apply sub_egypt_word; [exact Hw|exact Hw''|exact Ht].
  - destruct (IH Hnot ltac:(discriminate) Ht) as (q & Hq & E).
    destruct (sub_egypt_word w (" " +:+ Py.join " " (w' :: ws) +:+ tail) Hw
                Hw'' eq_refl) as (q1 & _ & E1).
    exists q. split; [exact Hq|]. intros prev.
    rewrite join_cons, !app_assoc_str, E1. f_equal.
    rewrite app_cons, app_nil.
    rewrite sub_egypt_from_copy by (apply match_egypt_no_prefix; reflexivity).
    rewrite E. reflexivity.
Qed.

Lemma sub_egypt_join_only (ws : list string) :
  Forall is_lower_word ws -> "egypt" ∉ ws -> ws <> [] ->
  Re.sub_egypt (Py.join " " ws) = Py.join " " ws.
Proof.
  intros Hws Hnot Hne.
  destruct (sub_egypt_join ws "" Hws Hnot Hne eq_refl) as (q & _ & E).
  unfold Re.sub_egypt. specialize (E None). rewrite !app_empty_r in E. exact E.
Qed.

Lemma sub_egypt_join_country (ws : list string) :
  Forall is_lower_word ws -> "egypt" ∉ ws -> ws <> [] ->
  Re.sub_egypt (Py.join " " ws +:+ ", egypt") = Py.join " " ws +:+ ", ".
Proof.
  intros Hws Hnot Hne.
  destruct (sub_egypt_join ws ", egypt" Hws Hnot Hne eq_refl) as (q & _ & E).
  unfold Re.sub_egypt. rewrite E. f_equal.
  change ", egypt" with (String "," (String " " "egypt")).
  rewrite sub_egypt_from_copy by (apply match_egypt_no_prefix; reflexivity).
  rewrite sub_egypt_from_copy by (apply match_egypt_no_prefix; reflexivity).
  reflexivity.
Qed.

(** ** More on [extract_city] *)

Lemma lstrip_fixed (c : ascii) (s : string) :
  Py.isspace c = false -> Py.lstrip (String c s) = String c s.
Proof. intros H. simpl. rewrite H. reflexivity. Qed.

Lemma rstrip_join (ws : list string) :
  Forall (fun w => w <> "" /\ no_space w = true) ws ->
  Py.rstrip (Py.join " " ws) = Py.join " " ws.
Proof.
  induction 1 as [|w ws [Hne Hw] Hws IH]; [reflexivity|].
  destruct ws as [|w' ws]; [now apply rstrip_no_space|].
  rewrite join_cons.
  assert (Py.join " " (w' :: ws) <> "") as HJ.
  { apply join_not_empty; [|discriminate].
    revert Hws. apply List.Forall_impl. now intros x [Hx _]. }
  apply rstrip_app_fixed; [apply rstrip_app_fixed; assumption|].
  rewrite app_cons. discriminate.
Qed.

Lemma lstrip_words (ws : list string) (tail : string) :
  Forall (fun w => w <> "" /\ no_space w = true) ws -> ws <> [] ->
  Py.lstrip (Py.join " " ws +:+ tail) = Py.join " " ws +:+ tail.
Proof.
  intros H Hne. destruct H as [|w ws [Hw Hsp] Hws]; [congruence|].
  destruct w as [|c w]; [congruence|].
  unfold no_space in Hsp. simpl in Hsp. apply andb_prop in Hsp as [Hc _].
  apply negb_true_iff in Hc.
  destruct ws; [|rewrite join_cons]; cbn [Py.join]; rewrite !app_cons;
    now apply lstrip_fixed.
Qed.

Lemma lower_words_no_space (ws : list string) :
  Forall is_lower_word ws -> Forall (fun w => w <> "" /\ no_space w = true) ws.
Proof.
  apply List.Forall_impl. intros w [Hne Hw]. split; [exact Hne|].
  now apply lower_word_no_space.
Qed.

Lemma strip_words (ws : list string) :
  Forall is_lower_word ws -> Py.strip (Py.join " " ws) = Py.join " " ws.
Proof.
  intros H. apply lower_words_no_space in H. unfold Py.strip.
  destruct ws as [|w ws]; [reflexivity|].
  rewrite <- (app_empty_r (Py.join " " (w :: ws))) at 1.
  rewrite (lstrip_words _ "" H), app_empty_r by discriminate.
  now apply rstrip_join.
Qed.

Lemma strip_words_country (ws : list string) :
  Forall is_lower_word ws -> ws <> [] ->
  Py.strip (Py.join " " ws +:+ ", egypt") = Py.join " " ws +:+ ", egypt".
Proof.
  intros H Hne. apply lower_words_no_space in H. unfold Py.strip.
  rewrite (lstrip_words _ _ H Hne).
  apply rstrip_app_fixed; [reflexivity|discriminate].
Qed.

Lemma sub_non_letters_app (a b : string) :
  Re.sub_non_letters (a +:+ b) = Re.sub_non_letters a +:+ Re.sub_non_letters b.
Proof.
  induction a as [|c a IH]; [reflexivity|].
  rewrite app_cons. simpl. destruct (Re.letter_or_space c); rewrite IH; reflexivity.
Qed.

Lemma sub_non_letters_words (ws : list string) :
  Forall is_lower_word ws ->
  Re.sub_non_letters (Py.join " " ws) = Py.join " " ws.
Proof.
  intros H. apply sub_non_letters_fixed, all_chars_join; [reflexivity|].
  revert H. apply List.Forall_impl. intros w [_ Hw].
  revert Hw. apply all_chars_impl, lower_letter_or_space.
Qed.

(** What [extract_city] returns for a text, by the return statement taken. *)
Lemma extract_city_result (location city : string) :
  extract_city (PyStr location) = Return (Some city) ->
  (without_country location = "" /\ city = "Egypt")
  \/ (without_country location <> "" /\ city_words location <> []
      /\ city = Py.join " " (capitalize <$> city_words location)).
Proof.
  rewrite extract_city_str.
  destruct (String.eqb_spec (without_country location) "") as [E|E].
  - intros [= <-]. now left.
  - pose proof (title_join _ (city_words_lower location)) as T.
    destruct (city_words location) eqn:W; [discriminate|].
    intros [= <-]. right. split; [exact E|]. split; [discriminate|exact T].
Qed.

(** The result for a text that is, once trimmed and lower-cased, a list of
    lower-case words, with or without the country after a comma. *)
Lemma extract_city_of_words (location : string) (ws : list string) :
  Forall is_lower_word ws -> ws <> [] -> "egypt" ∉ ws ->
  Py.lower location = Py.join " " ws
  \/ Py.lower location = Py.join " " ws +:+ ", egypt" ->
  extract_city (PyStr location)
  = Return (Some (Py.join " " (capitalize <$> ws))).
Proof.
  intros Hws Hne Hnot Hl.
  assert (without_country location <> "" /\ city_words location = ws) as [Hc Hw].
  { unfold city_words, without_country. rewrite strip_lower.
    destruct Hl as [-> | ->].
    - rewrite (strip_words _ Hws), (sub_egypt_join_only _ Hws Hnot Hne).
      split.
      + apply join_not_empty; [|exact Hne].
        revert Hws. apply List.Forall_impl. now intros w [Hw _].
      + rewrite (sub_non_letters_words _ Hws).
        apply split_join, lower_words_no_space, Hws.
    - rewrite (strip_words_country _ Hws Hne),
        (sub_egypt_join_country _ Hws Hnot Hne).
      split.
      + destruct (Py.join " " ws); discriminate.
      + rewrite sub_non_letters_app, (sub_non_letters_words _ Hws).
        change (Re.sub_non_letters ", ") with " ".
        apply split_join_spaces; [|reflexivity].
        apply lower_words_no_space, Hws. }
  rewrite extract_city_str. apply String.eqb_neq in Hc. rewrite Hc, Hw.
  assert (Forall (fun w => w <> "" /\ all_chars Py.is_ascii_lower w = true) ws)
    as Hws' by exact Hws.
  pose proof (title_join _ Hws') as T.
  destruct ws; [congruence|]. rewrite T. reflexivity.
Qed.

(** X1: a text of whitespace only, the empty text included, gives "Egypt". *)
Theorem extract_city_blank (location : string) :
  all_chars Py.isspace location = true ->
  extract_city (PyStr location) = Return (Some "Egypt").
Proof.
  intros H. rewrite extract_city_str. unfold without_country, Py.strip.
  rewrite (lstrip_spaces _ H). reflexivity.
Qed.

Lemma extract_city_blank_witness :
  all_chars Py.isspace "   " = true
  /\ extract_city (PyStr "   ") = Return (Some "Egypt").
Proof.
  split; [reflexivity|]. apply (extract_city_blank "   "). reflexivity.
Defined.

(** X2: a city returned by [extract_city] is a non-empty list of capitalised
    ASCII words joined by single spaces, with no space before or after. *)
Theorem extract_city_format (location city : string) :
  extract_city (PyStr location) = Return (Some city) ->
  exists words : list string,
    words <> []
    /\ Forall (fun w => is_capitalized w = true) words
    /\ city = Py.join " " words
    /\ Py.split city = words
    /\ city <> "".
Proof.
  intros H. apply extract_city_result in H as [[_ ->] | (_ & Hne & ->)].
  - exists ["Egypt"]. repeat split; try reflexivity; try discriminate.
    repeat constructor.
  - pose proof (city_words_lower location) as Hws.
    assert (Forall (fun w => is_capitalized w = true)
              (capitalize <$> city_words location)) as Hcap.
    { apply Forall_fmap. revert Hws. apply List.Forall_impl.
      intros w Hw. now apply capitalize_capitalized. }
    assert (Forall (fun w => w <> "" /\ no_space w = true)
              (capitalize <$> city_words location)) as Hsp.
    { revert Hcap. apply List.Forall_impl. apply capitalized_no_space. }
    exists (capitalize <$> city_words location).
    split; [destruct (city_words location); [congruence|discriminate]|].
    split; [exact Hcap|]. split; [reflexivity|].
    split; [now apply split_join|].
    apply join_not_empty.
    + revert Hsp. apply List.Forall_impl. now intros w [Hw _].
    + destruct (city_words location); [congruence|discriminate].
Qed.

Lemma extract_city_format_witness :
  extract_city (PyStr " 6th of october city - EGYPT ")
  = Return (Some "Th Of October City")
  /\ exists words : list string,
      Forall (fun w => is_capitalized w = true) words
      /\ "Th Of October City" = Py.join " " words.
Proof.
  split; [reflexivity|].
  destruct (extract_city_format " 6th of october city - EGYPT "
              "Th Of October City" eq_refl) as (words & _ & H & E & _).
  exists words. split; [exact H|exact E].
Defined.

(** X3: [extract_city] ignores the letter case of its argument. *)
Theorem extract_city_case_insensitive (a b : string) :
  Py.lower a = Py.lower b ->
  extract_city (PyStr a) = extract_city (PyStr b).
Proof.
  intros H. rewrite !extract_city_str. unfold city_words, without_country.
  rewrite !strip_lower, H. reflexivity.
Qed.

Lemma extract_city_case_insensitive_witness :
  Py.lower "ALEXANDRIA, Egypt" = Py.lower "alexandria, EGYPT"
  /\ extract_city (PyStr "ALEXANDRIA, Egypt")
     = extract_city (PyStr "alexandria, EGYPT").
Proof.
  split; [reflexivity|].
  apply (extract_city_case_insensitive "ALEXANDRIA, Egypt" "alexandria, EGYPT").
  reflexivity.
Defined.

(** X4: [extract_city] gives back a city it has returned, unless "Egypt" is
    one of several words of that city. *)
Theorem extract_city_stable (location city : string) :
  extract_city (PyStr location) = Return (Some city) ->
  city = "Egypt" \/ "Egypt" ∉ Py.split city ->
  extract_city (PyStr city) = Return (Some city).
Proof.
  intros H Hc. apply extract_city_result in H as [[_ ->] | (_ & Hne & ->)];
    [reflexivity|].
  destruct Hc as [-> | Hc]; [reflexivity|].
  pose proof (city_words_lower location) as Hws.
  assert (Forall is_lower_word (city_words location)) as Hlw by exact Hws.
  apply extract_city_of_words; [exact Hlw|exact Hne| |].
  - intros Hin. apply Hc.
    rewrite split_join.
    + apply (list_elem_of_fmap_2 capitalize) in Hin. exact Hin.
    + apply Forall_fmap. revert Hlw. apply List.Forall_impl.
      intros w Hw. apply capitalized_no_space, capitalize_capitalized, Hw.
  - left. rewrite lower_join, (lower_capitalized _ Hlw). reflexivity.
Qed.

Lemma extract_city_stable_witness :
  extract_city (PyStr "new-cairo (5th settlement), egypt")
  = Return (Some "Newcairo Th Settlement")
  /\ extract_city (PyStr "Newcairo Th Settlement")
     = Return (Some "Newcairo Th Settlement").
Proof.
  split; [reflexivity|].
  apply (extract_city_stable "new-cairo (5th settlement), egypt"); [reflexivity|].
  right. apply (bool_decide_unpack _). vm_compute. exact I.
Defined.

(** X5: a location that is, up to letter case, a list of words other than
    "egypt" separated by single spaces, alone or followed by ", egypt", gives
    these words capitalised and joined by single spaces. *)
Theorem extract_city_of_city_and_country (location : string) (ws : list string) :
  Forall is_lower_word ws -> ws <> [] -> "egypt" ∉ ws ->
  Py.lower location = Py.join " " ws
  \/ Py.lower location = Py.join " " ws +:+ ", egypt" ->
  extract_city (PyStr location)
  = Return (Some (Py.join " " (capitalize <$> ws))).
Proof. apply extract_city_of_words. Qed.

Lemma extract_city_of_city_and_country_witness :
  Py.lower "Sharm El Sheikh, EGYPT" = Py.join " " ["sharm"; "el"; "sheikh"] +:+ ", egypt"
  /\ extract_city (PyStr "Sharm El Sheikh, EGYPT")
     = Return (Some "Sharm El Sheikh").
Proof.
  split; [reflexivity|].
  apply (extract_city_of_city_and_country "Sharm El Sheikh, EGYPT"
           ["sharm"; "el"; "sheikh"]).
  - repeat constructor; discriminate.
  - discriminate.
  - apply (bool_decide_unpack _). vm_compute. exact I.
  - right. reflexivity.
Defined.

(** ** More on the candidate words *)

Lemma lower_no_upper (s : string) : no_upper s = true -> Py.lower s = s.
Proof.
  unfold no_upper. induction s as [|c s IH]; simpl; [reflexivity|].
  intros H. apply andb_prop in H as [Hc Hs]. apply negb_true_iff in Hc.
  unfold Py.lower_char. rewrite Hc, (IH Hs). reflexivity.
Qed.

Lemma no_upper_lower (s : string) : no_upper (Py.lower s) = true.
Proof.
  unfold no_upper. induction s as [|c s IH]; simpl; [reflexivity|].
  rewrite lower_char_not_isupper, IH. reflexivity.
Qed.

Lemma split_from_chars (P : ascii -> bool) (s : string) :
  forall word,
    all_chars P word = true -> all_chars P s = true ->
    Forall (fun w => all_chars P w = true) (Py.split_from word s).
Proof.
  induction s as [|c s IH]; intros word Hw Hs.
  - simpl. destruct word; repeat constructor. exact Hw.
  - simpl in Hs. apply andb_prop in Hs as [Hc Hs]. simpl.
    destruct (Py.isspace c).
    + destruct word; [now apply IH|]. constructor; [exact Hw|now apply IH].
    + apply IH; [|exact Hs]. unfold Py.snoc.
      rewrite all_chars_app, Hw. simpl. rewrite Hc. reflexivity.
Qed.

Lemma split_on_from_chars (P : ascii -> bool) (sep : ascii) (s : string) :
  forall field,
    all_chars P field = true -> all_chars P s = true ->
    Forall (fun w => all_chars P w = true) (Py.split_on_from sep field s).
Proof.
  induction s as [|c s IH]; intros field Hf Hs.
  - repeat constructor. exact Hf.
  - simpl in Hs. apply andb_prop in Hs as [Hc Hs]. simpl.
    destruct (Ascii.eqb c sep).
    + constructor; [exact Hf|now apply IH].
    + apply IH; [|exact Hs]. unfold Py.snoc.
      rewrite all_chars_app, Hf. simpl. rewrite Hc. reflexivity.
Qed.

Lemma split_words_no_space (s word : string) :
  word ∈ Py.split s -> word <> "" /\ no_space word = true.
Proof.
  intros Hin.
  pose proof (split_from_words (fun _ => true) s "" ) as H.
  assert (all_chars (fun _ => true) s = true) as Hs
    by (clear; induction s; [reflexivity|assumption]).
  specialize (H Hs eq_refl). rewrite List.Forall_forall in H.
  apply list_elem_of_In in Hin. destruct (H _ Hin) as [Hne Hw].
  split; [exact Hne|]. exact Hw.
Qed.

Lemma split_on_from_join (sep : ascii) (s : string) :
  forall field,
    Py.join (String sep "") (Py.split_on_from sep field s) = field +:+ s.
Proof.
  induction s as [|c s IH]; intros field.
  - simpl. rewrite app_empty_r. reflexivity.
  - simpl. destruct (Ascii.eqb_spec c sep) as [->|_].
    + specialize (IH ""). rewrite app_nil in IH.
      rewrite split_on_from_field in IH |- *.
      rewrite join_cons, IH. reflexivity.
    + rewrite IH. unfold Py.snoc. rewrite app_assoc_str. reflexivity.
Qed.

Lemma split_on_from_no_sep (s : string) :
  forall field,
    no_comma s = true -> Py.split_on_from "," field s = [field +:+ s].
Proof.
  unfold no_comma. induction s as [|c s IH]; intros field H.
  - rewrite app_empty_r. reflexivity.
  - simpl in H. apply andb_prop in H as [Hc Hs]. apply negb_true_iff in Hc.
    simpl. rewrite Hc, (IH _ Hs). unfold Py.snoc.
    rewrite app_assoc_str. reflexivity.
Qed.

Lemma split_on_no_sep (s : string) :
  no_comma s = true -> Py.split_on "," s = [s].
Proof. apply (split_on_from_no_sep s ""). Qed.

Lemma lower_char_comma (c : ascii) :
  Ascii.eqb (Py.lower_char c) "," = Ascii.eqb c ",".
Proof. each_char c. Qed.

Lemma no_comma_lower (s : string) : no_comma (Py.lower s) = no_comma s.
Proof.
  unfold no_comma. induction s as [|c s IH]; simpl; [reflexivity|].
  rewrite lower_char_comma, IH. reflexivity.
Qed.

Lemma split_from_space (x y : string) (sp : ascii) :
  Py.isspace sp = true ->
  forall word,
    Py.split_from word (x +:+ String sp y)
    = Py.split_from word x ++ Py.split y.
Proof.
  intros Hsp. unfold Py.split. induction x as [|c x IH]; intros word.
  - rewrite app_nil. simpl. rewrite Hsp. destruct word; reflexivity.
  - rewrite app_cons. simpl. destruct (Py.isspace c).
    + destruct word; rewrite IH; reflexivity.
    + apply IH.
Qed.

Lemma split_space (x y : string) (sp : ascii) :
  Py.isspace sp = true ->
  Py.split (x +:+ String sp y) = Py.split x ++ Py.split y.
Proof. intros H. apply (split_from_space x y sp H ""). Qed.

Lemma split_on_sep (sep : ascii) (x y : string) :
  Py.split_on sep (x +:+ String sep y) = Py.split_on sep x ++ Py.split_on sep y.
Proof. apply (split_on_from_sep sep x y ""). Qed.

(** ** More on the loop of [detect_language] *)

Lemma file_endswith_true (identifiers : list string) (filenames : list pyval) :
  file_endswith identifiers filenames = Return true ->
  exists file, PyStr file ∈ filenames
    /\ Py.endswith_any file identifiers = true.
Proof.
  induction filenames as [|v filenames IH]; [discriminate|].
  destruct v; try discriminate. cbn [file_endswith].
  destruct (Py.endswith_any s identifiers) eqn:E.
  - intros _. exists s. split; [apply list_elem_of_here|exact E].
  - intros H. destruct (IH H) as (file & Hin & Hf).
    exists file. split; [now apply list_elem_of_further|exact Hf].
Qed.

Lemma detect_loop_sound (words : gset string) (filenames : list pyval)
    (table : keyword_table) (lang : string) :
  detect_loop words filenames table = Return (Some lang) ->
  exists identifiers, (lang, identifiers) ∈ table
    /\ (keyword_in words identifiers = true
        \/ exists file, PyStr file ∈ filenames
             /\ Py.endswith_any file identifiers = true).
Proof.
  induction table as [|[l ids] table IH]; [discriminate|].
  cbn [detect_loop]. destruct (keyword_in words ids) eqn:K.
  - intros [= <-]. exists ids. split; [apply list_elem_of_here|now left].
  - destruct (file_endswith ids filenames) as [[|]|e] eqn:F; cbn.
    + intros [= <-]. exists ids. split; [apply list_elem_of_here|].
      right. now apply file_endswith_true.
    + intros H. destruct (IH H) as (ids' & Hin & Hm).
      exists ids'. split; [now apply list_elem_of_further|exact Hm].
    + discriminate.
Qed.

Lemma endswith_any_spec (file : string) (identifiers : list string) :
  Py.endswith_any file identifiers = true
  <-> exists identifier prefix,
      identifier ∈ identifiers /\ file = prefix +:+ identifier.
Proof.
  unfold Py.endswith_any. rewrite existsb_exists. split.
  - intros (id & Hid & H). apply endswith_spec in H as [p Hp].
    exists id, p. split; [now apply list_elem_of_In|exact Hp].
  - intros (id & p & Hid & Hp). exists id.
    split; [now apply list_elem_of_In|]. apply endswith_spec. eauto.
Qed.

Lemma first_match_none_iff (words : gset string) (files : list string)
    (table : keyword_table) :
  first_match words files table = None
  <-> Forall (fun e => lang_matches words files e = false) table.
Proof.
  split; [|apply first_match_none].
  unfold first_match. induction table as [|e table IH]; [constructor|].
  simpl. destruct (lang_matches words files e) eqn:M; [discriminate|].
  intros H. constructor; [exact M|exact (IH H)].
Qed.

Lemma lang_matches_false (words : gset string) (files : list string)
    (entry : string * list string) :
  lang_matches words files entry = false
  <-> (forall word, word ∈ snd entry -> word ∉ words)
      /\ (forall file identifier prefix,
             file ∈ files -> identifier ∈ snd entry ->
             file <> prefix +:+ identifier).
Proof.
  unfold lang_matches. rewrite orb_false_iff. split.
  - intros [K S]. split.
    + intros word Hin Hw.
      assert (keyword_in words (snd entry) = true) as K'
        by (apply keyword_in_spec; eauto).
      congruence.
    + intros file id p Hf Hid Hp.
      assert (existsb (fun file => Py.endswith_any file (snd entry)) files = true)
        as S' by (apply suffix_in_spec; eauto 10).
      congruence.
  - intros [K S]. split.
    + destruct (keyword_in words (snd entry)) eqn:E; [|reflexivity].
      apply keyword_in_spec in E as (word & Hin & Hw). destruct (K word Hin Hw).
    + destruct (existsb _ files) eqn:E; [|reflexivity].
      apply suffix_in_spec in E as (file & id & p & Hf & Hid & Hp).
      destruct (S file id p Hf Hid Hp).
Qed.

(** ** More on [detect_language] *)

(** A keyword file that holds a JSON document other than an object: the
    document has no [items]. *)
Lemma detect_language_not_a_dict (repo : gmap string pyval)
    (fs : gmap string json_file) (document : pyval) :
  fields_ok repo = true ->
  fs !! keywords_path = Some (Parsed document) ->
  (forall items, document <> PyDict items) ->
  detect_language repo fs
  = ([Open keywords_path; Close keywords_path], Raise AttributeError).
Proof.
  unfold fields_ok, detect_language. intros Ok K Hd.
  destruct (get repo "repo_description"), (get repo "topics"),
    (get repo "filenames"); try discriminate Ok.
  unfold mbind, io_bind, load_json. rewrite K. unfold lift, keywords_loop.
  destruct document; try reflexivity. destruct (Hd d eq_refl).
Qed.

(** A language whose identifiers are a number, [null], [true] or [false]:
    the loop over them cannot start. *)
Lemma items_loop_not_iterable (words : gset string) (filenames : list pyval)
    (lang : string) (identifiers : pyval) (rest : list (string * pyval)) :
  iterate identifiers = Raise TypeError ->
  items_loop words filenames ((lang, identifiers) :: rest) = Raise TypeError.
Proof. intros H. cbn [items_loop]. rewrite H. reflexivity. Qed.

(** A keyword file that is no UTF-8 text is closed again before the
    exception leaves the call. *)
Lemma detect_language_not_utf8 (repo : gmap string pyval)
    (fs : gmap string json_file) :
  fields_ok repo = true ->
  fs !! keywords_path = Some NotUtf8 ->
  detect_language repo fs
  = ([Open keywords_path; Close keywords_path], Raise UnicodeDecodeError).
Proof.
  unfold fields_ok, detect_language. intros Ok K.
  destruct (get repo "repo_description"), (get repo "topics"),
    (get repo "filenames"); try discriminate Ok.
  unfold mbind, io_bind, load_json. rewrite K. reflexivity.
Qed.

(** X6: a language that [detect_language] returns is a language of the
    keyword table, and one of its identifiers is a candidate word or ends a
    file name of the record. *)
Theorem detect_language_sound (repo : gmap string pyval)
    (fs : gmap string json_file) (table : keyword_table)
    (repo_description topics : string) (filenames : list pyval)
    (lang : string) :
  repo !! "repo_description" = Some (PyStr repo_description) ->
  repo !! "topics" = Some (PyStr topics) ->
  repo !! "filenames" = Some (PyList filenames) ->
  fs !! keywords_path = Some (Keywords table) ->
  snd (detect_language repo fs) = Return (Some lang) ->
  exists identifiers,
    (lang, identifiers) ∈ table
    /\ ((exists word,
            word ∈ identifiers /\ word ∈ text_words repo_description topics)
        \/ (exists file identifier prefix,
               PyStr file ∈ filenames /\ identifier ∈ identifiers
               /\ file = prefix +:+ identifier)).
Proof.
  intros D T F K. rewrite (detect_language_loaded _ _ _ _ _ _ D T F K).
  cbn [snd]. intros H.
  destruct (detect_loop_sound _ _ _ _ H) as (ids & Hin & [Hk | (file & Hf & He)]).
  - exists ids. split; [exact Hin|]. left. now apply keyword_in_spec.
  - exists ids. split; [exact Hin|]. right.
    apply endswith_any_spec in He as (id & p & Hid & Hp). eauto 10.
Qed.

Lemma detect_language_sound_witness :
  snd (detect_language (record "" "" ["main.go"]) example_fs)
  = Return (Some "Go")
  /\ exists identifiers, ("Go", identifiers) ∈ example_table.
Proof.
  split; [reflexivity|].
  destruct (detect_language_sound (record "" "" ["main.go"]) example_fs
              example_table "" "" [PyStr "main.go"] "Go"
              eq_refl eq_refl eq_refl eq_refl eq_refl) as (ids & H & _).
  exists ids. exact H.
Defined.

(** X7: for a record whose file names are texts, [detect_language] returns
    [None] exactly when no language of the table has an identifier that is a
    candidate word or that ends a file name. *)
Theorem detect_language_none_iff (repo : gmap string pyval)
    (fs : gmap string json_file) (table : keyword_table)
    (repo_description topics : string) (filenames : list string) :
  repo !! "repo_description" = Some (PyStr repo_description) ->
  repo !! "topics" = Some (PyStr topics) ->
  repo !! "filenames" = Some (PyList (PyStr <$> filenames)) ->
  fs !! keywords_path = Some (Keywords table) ->
  snd (detect_language repo fs) = Return None
  <-> (forall lang identifiers,
          (lang, identifiers) ∈ table ->
          (forall word,
              word ∈ identifiers ->
              word ∉ text_words repo_description topics)
          /\ (forall file identifier prefix,
                 file ∈ filenames -> identifier ∈ identifiers ->
                 file <> prefix +:+ identifier)).
Proof.
  intros D T F K. rewrite (detect_language_strs _ _ _ _ _ _ D T F K).
  cbn [snd]. split.
  - intros [= H]. apply first_match_none_iff in H.
    rewrite List.Forall_forall in H. intros lang ids Hin.
    apply list_elem_of_In in Hin.
    exact (proj1 (lang_matches_false _ _ (lang, ids)) (H _ Hin)).
  - intros H. f_equal. apply first_match_none_iff, List.Forall_forall.
    intros [lang ids] Hin. apply lang_matches_false. cbn [snd].
    apply (H lang ids). now apply list_elem_of_In.
Qed.

Lemma detect_language_none_iff_witness :
  snd (detect_language (record "a rust crate" "cli,tools" ["Cargo.toml"])
         example_fs) = Return None
  /\ forall file identifier prefix,
      file ∈ ["Cargo.toml"] -> identifier ∈ ["golang"; ".go"] ->
      file <> prefix +:+ identifier.
Proof.
  split; [reflexivity|].
  apply (proj1 (detect_language_none_iff
                  (record "a rust crate" "cli,tools" ["Cargo.toml"])
                  example_fs example_table "a rust crate" "cli,tools"
                  ["Cargo.toml"] eq_refl eq_refl eq_refl eq_refl)
           eq_refl "Go").
  apply list_elem_of_further, list_elem_of_here.
Defined.

(** X8: a file name that is not a text makes [detect_language] raise
    [AttributeError] when the first language of the table has no identifier
    among the candidate words and none that ends a file name before it. *)
Theorem detect_language_nontext_filename (repo : gmap string pyval)
    (fs : gmap string json_file) (table : keyword_table)
    (repo_description topics : string) (before : list string) (v : pyval)
    (rest : list pyval) (lang : string) (identifiers : list string) :
  repo !! "repo_description" = Some (PyStr repo_description) ->
  repo !! "topics" = Some (PyStr topics) ->
  repo !! "filenames" = Some (PyList ((PyStr <$> before) ++ v :: rest)) ->
  fs !! keywords_path = Some (Keywords ((lang, identifiers) :: table)) ->
  is_str v = false ->
  (forall word,
      word ∈ identifiers -> word ∉ text_words repo_description topics) ->
  (forall file identifier prefix,
      file ∈ before -> identifier ∈ identifiers ->
      file <> prefix +:+ identifier) ->
  detect_language repo fs
  = ([Open keywords_path; Close keywords_path], Raise AttributeError).
Proof.
  intros D T F K Hv Hk Hs. rewrite (detect_language_loaded _ _ _ _ _ _ D T F K).
  f_equal. cbn [detect_loop].
  destruct (keyword_in _ identifiers) eqn:E.
  - apply keyword_in_spec in E as (word & Hin & Hw). destruct (Hk word Hin Hw).
  - rewrite file_endswith_not_str; [reflexivity|exact Hv|].
    apply List.Forall_forall. intros file Hf.
    destruct (Py.endswith_any file identifiers) eqn:A; [|reflexivity].
    apply endswith_any_spec in A as (id & p & Hid & Hp).
    apply list_elem_of_In in Hf. destruct (Hs file id p Hf Hid Hp).
Qed.

Lemma detect_language_nontext_filename_witness :
  is_str PyNone = false
  /\ detect_language
       (<["filenames" := PyList [PyStr "README.md"; PyNone; PyStr "main.py"]]>
          (record "a tool" "" []))
       example_fs
     = ([Open keywords_path; Close keywords_path], Raise AttributeError).
Proof.
  split; [reflexivity|].
  apply (detect_language_nontext_filename
           (<["filenames" := PyList [PyStr "README.md"; PyNone; PyStr "main.py"]]>
              (record "a tool" "" []))
           example_fs
           [("Go", ["golang"; ".go"])] "a tool" "" ["README.md"] PyNone
           [PyStr "main.py"] "Python" ["python"; ".py"]);
    try reflexivity.
  - intros word Hw. apply (bool_decide_unpack _).
    repeat (apply elem_of_cons in Hw as [->|Hw]; [vm_compute; exact I|]).
    inversion Hw.
  - intros file id p Hf Hid Hp.
    assert (Py.endswith_any file ["python"; ".py"] = true) as A
      by (apply endswith_any_spec; eauto).
    apply elem_of_cons in Hf as [->|Hf]; [discriminate A|inversion Hf].
Defined.

(** X10: every candidate word is in lower case, so an identifier that
    [lower] changes is never found among the candidate words. *)
Theorem text_words_lower (repo_description topics word : string) :
  word ∈ text_words repo_description topics ->
  Py.lower word = word.
Proof.
  intros H. apply lower_no_upper. apply elem_of_text_words in H.
  assert (forall l : list string,
             Forall (fun w => all_chars (fun c => negb (Py.isupper c)) w = true) l ->
             word ∈ l -> no_upper word = true) as A.
  { intros l Hl Hin. rewrite List.Forall_forall in Hl.
    apply Hl, list_elem_of_In, Hin. }
  destruct H as [H | H]; revert H; apply A.
  - apply split_from_chars; [reflexivity|apply no_upper_lower].
  - apply split_on_from_chars; [reflexivity|apply no_upper_lower].
Qed.

Lemma text_words_lower_witness :
  "python" ∈ text_words "A Python Tool" "CLI,Go"
  /\ Py.lower "python" = "python"
  /\ "Python" ∉ text_words "A Python Tool" "CLI,Go".
Proof.
  assert ("python" ∈ text_words "A Python Tool" "CLI,Go") as H
    by (apply (bool_decide_unpack _); vm_compute; exact I).
  split; [exact H|]. split.
  - apply (text_words_lower "A Python Tool" "CLI,Go" "python" H).
  - intros H'. apply text_words_lower in H'. discriminate H'.
Defined.

(** X11: a candidate word that is empty or contains whitespace comes from
    [topics]: the words of the description are not empty and contain no
    whitespace. *)
Theorem text_words_space_from_topics (repo_description topics word : string) :
  word ∈ text_words repo_description topics ->
  word = "" \/ no_space word = false ->
  word ∈ Py.split_on "," (Py.lower topics).
Proof.
  intros H Hw. apply elem_of_text_words in H as [H | H]; [|exact H].
  apply split_words_no_space in H as [Hne Hsp].
  destruct Hw as [-> | Hw]; congruence.
Qed.

Lemma text_words_space_from_topics_witness :
  "machine learning" ∈ text_words "machine learning" "Machine Learning,ai"
  /\ "machine learning" ∈ Py.split_on "," (Py.lower "Machine Learning,ai")
  /\ "machine learning" ∉ text_words "machine learning" "ai".
Proof.
  assert ("machine learning" ∈ text_words "machine learning" "Machine Learning,ai")
    as H by (apply (bool_decide_unpack _); vm_compute; exact I).
  split; [exact H|]. split.
  - apply (text_words_space_from_topics _ _ _ H). right. reflexivity.
  - apply (bool_decide_unpack _). vm_compute. exact I.
Defined.

(** X12: joining the fields of the lower-cased [topics] with commas gives the
    lower-cased [topics] back: the split drops and trims nothing. *)
Theorem topics_split_join (topics : string) :
  Py.join "," (Py.split_on "," (Py.lower topics)) = Py.lower topics.
Proof. apply (split_on_from_join "," (Py.lower topics) ""). Qed.

(** X13: a [topics] text without a comma is one candidate word as a whole,
    lower-cased: the candidate words are it and the words of the
    description. *)
Theorem text_words_single_topic (repo_description topics word : string) :
  no_comma topics = true ->
  word ∈ text_words repo_description topics
  <-> word ∈ Py.split (Py.lower repo_description) \/ word = Py.lower topics.
Proof.
  intros H. rewrite elem_of_text_words, split_on_no_sep.
  - rewrite list_elem_of_singleton. reflexivity.
  - rewrite no_comma_lower. exact H.
Qed.

Lemma text_words_single_topic_witness :
  no_comma "Deep Learning" = true
  /\ "deep learning" ∈ text_words "" "Deep Learning"
  /\ "deep" ∉ text_words "" "Deep Learning".
Proof.
  split; [reflexivity|]. split.
  - apply (text_words_single_topic "" "Deep Learning" "deep learning" eq_refl).
    right. reflexivity.
  - intros H.
    apply (text_words_single_topic "" "Deep Learning" "deep" eq_refl) in H
      as [H | H]; [inversion H|discriminate H].
Defined.

(** X14: the candidate words do not depend on the order of the parts of the
    description around a whitespace character, nor on the order of the parts
    of [topics] around a comma. *)
Theorem text_words_order (a b topics repo_description : string) (sp : ascii) :
  Py.isspace sp = true ->
  text_words (a +:+ String sp b) topics = text_words (b +:+ String sp a) topics
  /\ text_words repo_description (a +:+ String "," b)
     = text_words repo_description (b +:+ String "," a).
Proof.
  intros Hsp. unfold text_words. split.
  - rewrite !lower_app. cbn [Py.lower].
    rewrite !split_space by (rewrite isspace_lower_char; exact Hsp).
    rewrite !list_to_set_app_L. f_equal. apply union_comm_L.
  - rewrite !lower_app. cbn [Py.lower].
    change (Py.lower_char ",") with ","%char.
    rewrite !split_on_sep, !list_to_set_app_L. f_equal. apply union_comm_L.
Qed.

Lemma text_words_order_witness :
  Py.isspace " " = true
  /\ text_words ("fast" +:+ " python") "" = text_words ("python" +:+ " fast") "".
Proof.
  split; [reflexivity|].
  apply (proj1 (text_words_order "fast" "python" "" "" " " eq_refl)).
Defined.

(** X15: a language with the empty string among its identifiers is returned
    for every record that reaches it with a file name or with an empty
    [topics]. *)
Theorem detect_language_empty_identifier (repo : gmap string pyval)
    (fs : gmap string json_file) (pre post : keyword_table)
    (repo_description topics : string) (filenames : list string)
    (lang : string) (identifiers : list string) :
  repo !! "repo_description" = Some (PyStr repo_description) ->
  repo !! "topics" = Some (PyStr topics) ->
  repo !! "filenames" = Some (PyList (PyStr <$> filenames)) ->
  fs !! keywords_path = Some (Keywords (pre ++ (lang, identifiers) :: post)) ->
  Forall (fun e => lang_matches (text_words repo_description topics)
                     filenames e = false) pre ->
  "" ∈ identifiers ->
  filenames <> [] \/ topics = "" ->
  snd (detect_language repo fs) = Return (Some lang).
Proof.
  intros D T F K Hpre Hid Hrec.
  rewrite (detect_language_strs _ _ _ _ _ _ D T F K). cbn [snd]. f_equal.
  apply (first_match_app _ _ _ _ (lang, identifiers) Hpre).
  unfold lang_matches. cbn [snd]. apply orb_true_iff.
  destruct Hrec as [Hf | ->].
  - right. apply suffix_in_spec. destruct filenames as [|file files]; [congruence|].
    exists file, "", file. split; [apply list_elem_of_here|].
    split; [exact Hid|]. rewrite app_empty_r. reflexivity.
  - left. apply keyword_in_spec. exists "". split; [exact Hid|].
    apply empty_topics_token.
Qed.

Lemma detect_language_empty_identifier_witness :
  "" ∈ ["rust"; ""]
  /\ snd (detect_language (record "a parser" "" [])
            {[ keywords_path := Keywords [("Rust", ["rust"; ""])] ]})
     = Return (Some "Rust").
Proof.
  assert ("" ∈ ["rust"; ""]) as H
    by apply list_elem_of_further, list_elem_of_here.
  split; [exact H|].
  apply (detect_language_empty_identifier (record "a parser" "" [])
           {[ keywords_path := Keywords [("Rust", ["rust"; ""])] ]}
           [] [] "a parser" "" [] "Rust" ["rust"; ""]);
    try reflexivity; [constructor|exact H|right; reflexivity].
Defined.

(** ** More on [top_ranked_repos] *)

(** X16: the rows returned are rows of the table, none more often than in
    the table; when [n] is at least the number of rows they are all the rows
    of the table. *)
Theorem top_ranked_repos_rows (order : string -> list row -> list row)
    (df : dataframe) (feature : string) (n : Z) :
  descending_order order ->
  has_column feature df = true ->
  exists top : dataframe,
    top_ranked_repos order df feature n = Return top
    /\ df_rows top ⊆+ df_rows df
    /\ ((Z.of_nat (List.length (df_rows df)) <= n)%Z ->
        df_rows top ≡ₚ df_rows df).
Proof.
  intros Horder Hcol. destruct (Horder feature (df_rows df)) as [Hp _].
  set (sorted := DataFrame (df_columns df) (order feature (df_rows df))).
  exists (Pd.head n sorted).
  split; [now apply top_ranked_repos_head|]. split.
  - destruct (head_rows_take n sorted) as [k ->]. cbn [df_rows sorted].
    rewrite <- Hp at 2. apply submseteq_take.
  - intros Hn. rewrite head_rows_nonneg by lia. cbn [df_rows sorted].
    rewrite take_ge; [exact Hp|]. rewrite (Permutation_length Hp). lia.
Qed.

Lemma top_ranked_repos_rows_witness :
  descending_order insertion_order
  /\ has_column "stars" example_df = true
  /\ exists top : dataframe,
      top_ranked_repos insertion_order example_df "stars" 20 = Return top
      /\ df_rows top ≡ₚ df_rows example_df.
Proof.
  split; [exact insertion_order_descending|]. split; [reflexivity|].
  destruct (top_ranked_repos_rows insertion_order example_df "stars" 20
              insertion_order_descending eq_refl)
    as (top & H & _ & P).
  exists top. split; [exact H|]. apply P. vm_compute. discriminate.
Defined.



(** X18: asking for more rows only adds rows at the end: for
    [0 <= n <= m] the result for [n] is a prefix of the result for [m]. *)
Theorem top_ranked_repos_monotone (order : string -> list row -> list row)
    (df : dataframe) (feature : string) (n m : Z) :
  has_column feature df = true -> (0 <= n <= m)%Z ->
  exists top_n top_m : dataframe,
    top_ranked_repos order df feature n = Return top_n
    /\ top_ranked_repos order df feature m = Return top_m
    /\ df_rows top_n `prefix_of` df_rows top_m.
Proof.
  intros Hcol Hnm. rewrite !(top_ranked_repos_head _ _ _ _ Hcol).
  eexists _, _. split; [reflexivity|]. split; [reflexivity|].
  rewrite !head_rows_nonneg by lia.
  replace (Z.to_nat n) with (Nat.min (Z.to_nat n) (Z.to_nat m)) by lia.
  rewrite <- take_take. apply prefix_take.
Qed.

Lemma top_ranked_repos_monotone_witness :
  has_column "stars" example_df = true /\ (0 <= 2 <= 5)%Z
  /\ exists top_n top_m : dataframe,
      top_ranked_repos insertion_order example_df "stars" 2 = Return top_n
      /\ top_ranked_repos insertion_order example_df "stars" 5 = Return top_m
      /\ df_rows top_n `prefix_of` df_rows top_m.
Proof.
  split; [reflexivity|]. split; [lia|].
  apply (top_ranked_repos_monotone insertion_order example_df "stars" 2 5);
    [reflexivity|lia].
Defined.

(** ** [plot_histograms] *)

Section PlotHistograms.
Context {color : Type}.
Variable hist_error : list Z -> color -> option exn.
Variable data : gmap string (list Z).
Variable palette_color : list color.

Lemma hists_app (l1 l2 : list (drawing color)) :
  hists (l1 ++ l2) = hists l1 ++ hists l2.
Proof. apply omap_app. Qed.

Lemma hist_loop_returns (columns : list string) :
  forall i,
    snd (hist_loop hist_error data palette_color i columns) = None
    <-> forall k, column_ok hist_error data palette_color i columns k.
Proof.
  induction columns as [|column rest IH]; intros i.
  - simpl. split; [|reflexivity]. intros _ k col H. inversion H.
  - cbn [hist_loop]. split.
    + destruct (data !! column) as [values|] eqn:D; [|discriminate].
      destruct (palette_color !! i) as [c|] eqn:P; [|discriminate].
      destruct (hist_error values c) eqn:E; [discriminate|].
      specialize (IH (S i)).
      destruct (hist_loop hist_error data palette_color (S i) rest) as [log r].
      cbn [snd] in *. intros Hr [|k] col Hcol.
      * injection Hcol as <-. exists values, c. rewrite Nat.add_0_r. auto.
      * replace (i + S k) with (S i + k) by lia.
        exact (proj1 IH Hr k col Hcol).
    + intros H. destruct (H 0 column eq_refl) as (values & c & D & P & E).
      rewrite Nat.add_0_r in P. rewrite D, P, E.
      specialize (IH (S i)).
      destruct (hist_loop hist_error data palette_color (S i) rest) as [log r].
      cbn [snd] in *. apply IH. intros k col Hcol.
      replace (S i + k) with (i + S k) by lia. exact (H (S k) col Hcol).
Qed.

Lemma hist_loop_no_show (columns : list string) :
  forall i,
    (Show ∉ fst (hist_loop hist_error data palette_color i columns))
    /\ (TightLayout ∉ fst (hist_loop hist_error data palette_color i columns)).
Proof.
  induction columns as [|column rest IH]; intros i.
  - simpl. split; apply not_elem_of_nil.
  - cbn [hist_loop]. destruct (data !! column) as [values|];
      [|split; apply not_elem_of_nil].
    destruct (palette_color !! i) as [c|]; [|split; apply not_elem_of_nil].
    destruct (hist_error values c); [split; apply not_elem_of_nil|].
    specialize (IH (S i)).
    destruct (hist_loop hist_error data palette_color (S i) rest) as [log r].
    cbn [fst] in *. destruct IH as [IH1 IH2].
    split; intros H; apply elem_of_app in H as [H | H];
      try (now apply IH1); try (now apply IH2);
      repeat (apply elem_of_cons in H as [H | H]; [discriminate H|]);
      inversion H.
Qed.

Lemma hist_loop_hists (columns : list string) :
  forall i,
    snd (hist_loop hist_error data palette_color i columns) = None ->
    List.length (hists (fst (hist_loop hist_error data palette_color i columns)))
    = List.length columns
    /\ forall k column,
        columns !! k = Some column ->
        exists values c,
          data !! column = Some values
          /\ palette_color !! (i + k) = Some c
          /\ hists (fst (hist_loop hist_error data palette_color i columns)) !! k
             = Some (i + k, values, c)
          /\ SetTitle (i + k) ("Distribution of " +:+ column)
               ∈ fst (hist_loop hist_error data palette_color i columns).
Proof.
  induction columns as [|column rest IH]; intros i.
  - intros _. split; [reflexivity|]. intros k column H. inversion H.
  - cbn [hist_loop]. destruct (data !! column) as [values|] eqn:D; [|discriminate].
    destruct (palette_color !! i) as [c|] eqn:P; [|discriminate].
    destruct (hist_error values c); [discriminate|].
    specialize (IH (S i)).
    destruct (hist_loop hist_error data palette_color (S i) rest) as [log r].
    cbn [fst snd] in *. intros Hr. destruct (IH Hr) as [Hlen Hk].
    split; [rewrite hists_app, length_app, Hlen; reflexivity|].
    intros [|k] col Hcol.
    + injection Hcol as <-. exists values, c. rewrite Nat.add_0_r.
      split; [exact D|]. split; [exact P|]. split; [reflexivity|].
      apply list_elem_of_further, list_elem_of_here.
    + destruct (Hk k col Hcol) as (vs & c' & Hd & Hp & Hh & Ht).
      exists vs, c'. replace (i + S k) with (S i + k) by lia.
      split; [exact Hd|]. split; [exact Hp|]. split; [exact Hh|].
      apply elem_of_app. right. exact Ht.
Qed.

Lemma hist_loop_short_palette (columns : list string) :
  forall i,
    (forall k, i + k < List.length palette_color -> column_ok hist_error data palette_color i columns k) ->
    Forall (fun column => is_Some (data !! column)) columns ->
    i <= List.length palette_color ->
    List.length palette_color < i + List.length columns ->
    snd (hist_loop hist_error data palette_color i columns) = Some IndexError
    /\ i + List.length
             (hists (fst (hist_loop hist_error data palette_color i columns)))
       = List.length palette_color.
Proof.
  induction columns as [|column rest IH]; intros i Hok Hc Hi Hl.
  - simpl in Hl. lia.
  - apply Forall_cons in Hc as [[values D] Hc]. cbn [hist_loop]. rewrite D.
    destruct (palette_color !! i) as [c|] eqn:P.
    + pose proof P as Plt. apply lookup_lt_Some in Plt. simpl in Hl.
      destruct (Hok 0 ltac:(lia) column eq_refl) as (values' & c' & D' & P' & E).
      rewrite Nat.add_0_r, P in P'. rewrite D in D'.
      injection D' as <-. injection P' as <-. rewrite E.
      destruct (IH (S i)) as [Hr Hn]; [|exact Hc|lia|lia|].
      { intros k Hk col Hcol. replace (S i + k) with (i + S k) by lia.
        apply (Hok (S k)); [lia|exact Hcol]. }
      destruct (hist_loop hist_error data palette_color (S i) rest) as [log r].
      cbn [fst snd] in *. split; [exact Hr|].
      rewrite hists_app, length_app. simpl. lia.
    + apply lookup_ge_None in P. split; [reflexivity|]. simpl. lia.
Qed.

(** X19: [plot_histograms] returns normally exactly when there are at least
    two columns and, for each of them, the column is in [data], the palette
    has a colour at its place, and [hist] accepts the values and the
    colour. *)
Theorem plot_histograms_returns (columns : list string) :
  snd (plot_histograms hist_error data columns palette_color) = None
  <-> 2 <= List.length columns
      /\ forall k column,
          columns !! k = Some column ->
          exists values c,
            data !! column = Some values
            /\ palette_color !! k = Some c
            /\ hist_error values c = None.
Proof.
  unfold plot_histograms.
  destruct columns as [|c1 [|c2 rest]].
  - simpl. split; [discriminate|]. intros [H _]. lia.
  - simpl. split; [discriminate|]. intros [H _]. lia.
  - cbn [List.length].
    pose proof (hist_loop_returns (c1 :: c2 :: rest) 0) as H.
    destruct (hist_loop hist_error data palette_color 0 (c1 :: c2 :: rest))
      as [log [e|]]; cbn [snd] in *.
    + split; [discriminate|]. intros (_ & Hc).
      assert (Some e = None) as A; [|discriminate A].
      apply H. intros k. exact (Hc k).
    + split; [|reflexivity]. intros _. split; [lia|].
      intros k. exact (proj1 H eq_refl k).
Qed.

(** X20: when [plot_histograms] returns normally it has drawn one histogram
    per column, in the order of [columns]: the one of column [k] is on axis
    [k], of the values of that column, in colour [k] of the palette, under
    the title "Distribution of" followed by the column name; and the figure
    has been laid out and shown last. *)
Theorem plot_histograms_draws (columns : list string) :
  snd (plot_histograms hist_error data columns palette_color) = None ->
  let log := fst (plot_histograms hist_error data columns palette_color) in
  List.length (hists log) = List.length columns
  /\ (forall k column,
         columns !! k = Some column ->
         exists values c,
           data !! column = Some values
           /\ palette_color !! k = Some c
           /\ hists log !! k = Some (k, values, c)
           /\ SetTitle k ("Distribution of " +:+ column) ∈ log)
  /\ exists body, log = Subplots (List.length columns) :: body ++ [TightLayout; Show].
Proof.
  unfold plot_histograms.
  destruct columns as [|c1 [|c2 rest]]; [discriminate|discriminate|].
  cbn [List.length].
  pose proof (hist_loop_hists (c1 :: c2 :: rest) 0) as H.
  destruct (hist_loop hist_error data palette_color 0 (c1 :: c2 :: rest))
    as [log [e|]]; cbn [fst snd] in *; [discriminate|].
  intros _. destruct (H eq_refl) as [Hlen Hk].
  assert (hists (Subplots (S (S (List.length rest))) :: log ++ [TightLayout; Show])
          = hists log) as E.
  { change (hists (Subplots ?n :: ?l)) with (hists l).
    rewrite hists_app. apply app_nil_r. }
  cbv zeta. rewrite E. split; [exact Hlen|]. split; [|eauto].
  intros k column Hc. destruct (Hk k column Hc) as (vs & c & Hd & Hp & Hh & Ht).
  exists vs, c. split; [exact Hd|]. split; [exact Hp|]. split; [exact Hh|].
  apply list_elem_of_further, elem_of_app. left. exact Ht.
Qed.

(** X21: the figure is shown exactly when [plot_histograms] returns
    normally: a call that raises never reaches [plt.show()]. *)
Theorem plot_histograms_show (columns : list string) :
  Show ∈ fst (plot_histograms hist_error data columns palette_color)
  <-> snd (plot_histograms hist_error data columns palette_color) = None.
Proof.
  unfold plot_histograms.
  destruct columns as [|c1 [|c2 rest]].
  - simpl. split; [intros H; inversion H|discriminate].
  - simpl. split; [|discriminate]. intros H.
    apply elem_of_cons in H as [H | H]; [discriminate H|inversion H].
  - cbn [List.length].
    destruct (hist_loop_no_show (c1 :: c2 :: rest) 0) as [Hs _].
    destruct (hist_loop hist_error data palette_color 0 (c1 :: c2 :: rest))
      as [log [e|]]; cbn [fst snd] in *.
    + split; [|discriminate]. intros H.
      apply elem_of_cons in H as [H | H]; [discriminate H|]. destruct (Hs H).
    + split; [reflexivity|]. intros _.
      apply list_elem_of_further, elem_of_app. right.
      apply list_elem_of_further, list_elem_of_here.
Qed.

(** X22: with at least two columns that are all columns of [data], a palette
    shorter than [columns], and [hist] accepting the values and the colour
    of each column that has a colour, [plot_histograms] raises [IndexError]
    after drawing as many histograms as the palette has colours. *)
Theorem plot_histograms_short_palette (columns : list string) :
  2 <= List.length columns ->
  Forall (fun column => is_Some (data !! column)) columns ->
  List.length palette_color < List.length columns ->
  (forall k column values c,
      columns !! k = Some column -> data !! column = Some values ->
      palette_color !! k = Some c -> hist_error values c = None) ->
  snd (plot_histograms hist_error data columns palette_color) = Some IndexError
  /\ List.length
       (hists (fst (plot_histograms hist_error data columns palette_color)))
     = List.length palette_color.
Proof.
  intros Hn Hc Hl Hh. unfold plot_histograms.
  destruct columns as [|c1 [|c2 rest]]; [simpl in Hn; lia|simpl in Hn; lia|].
  cbn [List.length].
  destruct (hist_loop_short_palette (c1 :: c2 :: rest) 0) as [Hr Hlen];
    [|exact Hc|lia|exact Hl|].
  { intros k Hk col Hcol. rewrite List.Forall_forall in Hc.
    destruct (Hc col) as [values D].
    { apply list_elem_of_In, list_elem_of_lookup. eauto. }
    destruct (lookup_lt_is_Some_2 palette_color k Hk) as [c P].
    exists values, c. split; [exact D|]. split; [exact P|].
    exact (Hh k col values c Hcol D P). }
  destruct (hist_loop hist_error data palette_color 0 (c1 :: c2 :: rest))
    as [log r].
  cbn [fst snd] in *. subst r. cbn [fst snd]. split; [reflexivity|exact Hlen].
Qed.

End PlotHistograms.

Lemma plot_histograms_draws_witness :
  snd (plot_histograms (fun _ _ => None)
         {[ "stars" := [3; 10]%Z; "forks" := [1; 2]%Z ]}
         ["stars"; "forks"] ["red"; "blue"]) = None
  /\ hists (fst (plot_histograms (fun _ _ => None)
                   {[ "stars" := [3; 10]%Z; "forks" := [1; 2]%Z ]}
                   ["stars"; "forks"] ["red"; "blue"]))
     = [(0, [3; 10]%Z, "red"); (1, [1; 2]%Z, "blue")]
  /\ List.length
       (hists (fst (plot_histograms (fun _ _ => None)
                      {[ "stars" := [3; 10]%Z; "forks" := [1; 2]%Z ]}
                      ["stars"; "forks"] ["red"; "blue"]))) = 2.
Proof.
  assert (snd (plot_histograms (fun _ _ => None)
                 {[ "stars" := [3; 10]%Z; "forks" := [1; 2]%Z ]}
                 ["stars"; "forks"] ["red"; "blue"]) = None) as H
    by reflexivity.
  split; [exact H|]. split; [reflexivity|].
  apply (plot_histograms_draws (fun _ _ => None)
           {[ "stars" := [3; 10]%Z; "forks" := [1; 2]%Z ]}
           ["red"; "blue"] ["stars"; "forks"] H).
Defined.

Lemma plot_histograms_short_palette_witness :
  snd (plot_histograms (fun _ _ => None)
         {[ "stars" := [3; 10]%Z; "forks" := [1; 2]%Z ]}
         ["stars"; "forks"; "stars"] ["red"; "blue"]) = Some IndexError
  /\ List.length
       (hists (fst (plot_histograms (fun _ _ => None)
                      {[ "stars" := [3; 10]%Z; "forks" := [1; 2]%Z ]}
                      ["stars"; "forks"; "stars"] ["red"; "blue"]))) = 2.
Proof.
  apply (plot_histograms_short_palette (fun _ _ => None)
           {[ "stars" := [3; 10]%Z; "forks" := [1; 2]%Z ]} ["red"; "blue"]
           ["stars"; "forks"; "stars"]).
  - simpl. lia.
  - repeat constructor; eexists; reflexivity.
  - simpl. lia.
  - reflexivity.
Defined.
